(** * Health-risk API (backend/app.py): a shallow embedding and its properties

    The development follows [backend/app.py]: the scoring helper
    [compute_risk] and the query handlers built on it ([get_trend],
    [predict_risk], [get_summary], [get_alerts], [chat]).

    Modelling conventions.
    - Python floats are idealised as exact rationals ([Q]); NaN, infinities
      and binary rounding error are outside the model.  A Python [int] is a
      [Z].  Where the source lets an [int] literal escape ([max(risk, 0)],
      [min(.., 1)]) the value keeps its tag, see [pynum].
    - [random.uniform(-0.03, 0.03)] reads the next outcome of an explicit
      random source that is threaded through every handler.
    - Exceptions are values of [exn]; a handler is a function from the random
      source to either an exception or a result with the advanced source.
    - The database session is the list of its [City] rows, in row order.
    - Strings are [string]s of 8-bit characters; [str.lower] is modelled on
      the ASCII letters.
    - Two conversions fail outside their machine range: an [int] too large
      for a double ([compute_risk_int]) and an [int] too large for a 64-bit
      database parameter ([read_cities]). *)

From Stdlib Require Import ZArith QArith Qround Lqa Lia List String Ascii Bool.
From Stdlib Require Import DecimalString.
Import ListNotations.

Open Scope Q_scope.

(* ================================================================= *)
(** ** Python numbers *)

(** A number as Python holds it: the tag is visible to [round] and to
    string formatting. *)
Inductive pynum : Type :=
| PyInt (n : Z)
| PyFloat (x : Q).

Definition val (v : pynum) : Q :=
  match v with
  | PyInt n => inject_Z n
  | PyFloat x => x
  end.

Definition Qltb (x y : Q) : bool := negb (Qle_bool y x).

(** [max(a, b)] keeps [a] unless [b > a]; [min(a, b)] keeps [a] unless
    [b < a]. *)
Definition py_max (a b : pynum) : pynum :=
  if Qltb (val a) (val b) then b else a.
Definition py_min (a b : pynum) : pynum :=
  if Qltb (val b) (val a) then b else a.

Definition fmax (a b : Q) : Q := if Qltb a b then b else a.
Definition fmin (a b : Q) : Q := if Qltb b a then b else a.

(** Rounding to the nearest integer, ties to the even one. *)
Definition round_half_even (x : Q) : Z :=
  let f := Qfloor x in
  match Qcompare (x - inject_Z f) (1 # 2) with
  | Lt => f
  | Gt => (f + 1)%Z
  | Eq => if Z.even f then f else (f + 1)%Z
  end.

(** [round(x, 2)] on a float. *)
Definition round2 (x : Q) : Q := Qmake (round_half_even (x * 100)) 100.

(** [round(v, 2)]: an [int] is returned as it is. *)
Definition py_round2 (v : pynum) : pynum :=
  match v with
  | PyInt n => PyInt n
  | PyFloat x => PyFloat (round2 x)
  end.

(* ================================================================= *)
(** ** Exceptions and the random source *)

Inductive exn : Type :=
| HTTPException (status_code : Z) (detail : string)
| ZeroDivisionError
| OverflowError
| ValueError.

Definition NotFound : exn := HTTPException 404 "City not found".
Definition InvalidDate : exn :=
  HTTPException 400 "Invalid date format, expected YYYY-MM-DD".

(** The random source: [outcome k] is what the [k]-th call of
    [random.uniform(-0.03, 0.03)] returns, [calls] counts the calls made. *)
Record random : Type := mkRandom {
  outcome : nat -> Q;
  calls : nat
}.

Definition in_range (g : random) : Prop :=
  forall k, -(0.03) <= outcome g k <= 0.03.

Definition M (A : Type) : Type := random -> exn + (A * random).

Definition ret {A} (a : A) : M A := fun g => inr (a, g).
Definition raise {A} (e : exn) : M A := fun _ => inl e.
Definition bind {A B} (m : M A) (k : A -> M B) : M B :=
  fun g => match m g with
           | inl e => inl e
           | inr (a, g') => k a g'
           end.

Notation "x <- m ;; k" := (bind m (fun x => k))
  (at level 61, m at next level, right associativity).

Definition uniform : M Q :=
  fun g => inr (outcome g (calls g), mkRandom (outcome g) (S (calls g))).

Fixpoint mapM {A B} (f : A -> M B) (l : list A) : M (list B) :=
  match l with
  | [] => ret []
  | a :: l' => b <- f a ;; bs <- mapM f l' ;; ret (b :: bs)
  end.

(* ================================================================= *)
(** ** Strings *)

Open Scope string_scope.

(** [str.lower] on the ASCII letters. *)
Definition lower_char (c : ascii) : ascii :=
  let n := nat_of_ascii c in
  if (65 <=? n)%nat && (n <=? 90)%nat then ascii_of_nat (n + 32) else c.

Fixpoint lower (s : string) : string :=
  match s with
  | EmptyString => EmptyString
  | String c s' => String (lower_char c) (lower s')
  end.

(** [needle in hay]: [needle] occurs in [hay] as a substring. *)
Fixpoint contains (needle hay : string) : bool :=
  String.prefix needle hay ||
  match hay with
  | EmptyString => false
  | String _ hay' => contains needle hay'
  end.

(** [sep.join(items)]. *)
Fixpoint join (sep : string) (items : list string) : string :=
  match items with
  | [] => EmptyString
  | [x] => x
  | x :: rest => x ++ sep ++ join sep rest
  end.

Definition digit_char (n : Z) : ascii :=
  ascii_of_nat (48 + Z.to_nat (n mod 10)).

Definition pad2 (n : Z) : string :=
  String (digit_char (n / 10)) (String (digit_char n) EmptyString).

Definition pad4 (n : Z) : string :=
  String (digit_char (n / 1000)) (String (digit_char (n / 100)) (pad2 n)).

(** [str(n)] for an [int]. *)
Definition str_int (n : Z) : string := NilZero.string_of_int (Z.to_int n).

(** [str(x)] for a float [x >= 0] with at most two decimals, the only
    floats a handler prints: the shortest decimal, with at least one digit
    after the point. *)
Definition str_float (x : Q) : string :=
  let h := Qfloor (x * 100) in
  str_int (h / 100) ++ "." ++
  (if (h mod 10 =? 0)%Z then String (digit_char (h / 10)) EmptyString
   else pad2 (h mod 100)).

Definition str (v : pynum) : string :=
  match v with
  | PyInt n => str_int n
  | PyFloat x => str_float x
  end.

Definition digit_val (c : ascii) : option Z :=
  let n := nat_of_ascii c in
  if (48 <=? n)%nat && (n <=? 57)%nat then Some (Z.of_nat n - 48)%Z else None.

(** A digit in the character class [[lo-hi]]. *)
Definition in_class (lo hi : Z) (c : ascii) : option Z :=
  match digit_val c with
  | Some v => if ((lo <=? v) && (v <=? hi))%Z then Some v else None
  | None => None
  end.

(* ================================================================= *)
(** ** Dates *)

(** The calendar date of a [datetime]; the time of day is never read by
    the handlers. *)
Record datetime : Type := mkDate {
  year : Z;
  month : Z;
  day : Z
}.

Definition is_leap (y : Z) : bool :=
  ((y mod 4 =? 0) && (negb (y mod 100 =? 0) || (y mod 400 =? 0)))%Z.

Definition days_in_month (y m : Z) : Z :=
  if (m =? 2)%Z then (if is_leap y then 29 else 28)%Z
  else if existsb (Z.eqb m) [4; 6; 9; 11]%Z then 30%Z
  else 31%Z.

(** What the [datetime] constructor accepts. *)
Definition valid_dateb (d : datetime) : bool :=
  ((1 <=? year d) && (year d <=? 9999) &&
   (1 <=? month d) && (month d <=? 12) &&
   (1 <=? day d) && (day d <=? days_in_month (year d) (month d)))%Z.

Definition valid_date (d : datetime) : Prop := valid_dateb d = true.

(** The calendar order on dates. *)
Definition date_lt (a b : datetime) : Prop :=
  (year a < year b \/
   (year a = year b /\ (month a < month b \/
                        (month a = month b /\ day a < day b))))%Z.

(** The day before [d]; there is none before 0001-01-01. *)
Definition prev_day (d : datetime) : option datetime :=
  if (1 <? day d)%Z then Some (mkDate (year d) (month d) (day d - 1))
  else if (1 <? month d)%Z then
    Some (mkDate (year d) (month d - 1) (days_in_month (year d) (month d - 1)))
  else if (1 <? year d)%Z then Some (mkDate (year d - 1) 12 31)
  else None.

Fixpoint days_before (d : datetime) (n : nat) : option datetime :=
  match n with
  | O => Some d
  | S n' => match prev_day d with
            | Some d' => days_before d' n'
            | None => None
            end
  end.

(** [d - timedelta(days=n)]. *)
Definition sub_timedelta (d : datetime) (n : nat) : M datetime :=
  match days_before d n with
  | Some d' => ret d'
  | None => raise OverflowError
  end.

(** [d.strftime("%Y-%m-%d")].  The year is printed with four digits, which
    is what every platform does from the year 1000 on. *)
Definition strftime (d : datetime) : string :=
  pad4 (year d) ++ "-" ++ pad2 (month d) ++ "-" ++ pad2 (day d).

(** *** [datetime.strptime(s, "%Y-%m-%d")]

    The format compiles to the regular expression
    [(\d\d\d\d)-(1[0-2]|0[1-9]|[1-9])-(3[0-1]|[1-2]\d|0[1-9]|[1-9]| [1-9])],
    matched at the start of [s]; text left after the match and a date the
    calendar does not have are both a [ValueError]. *)

(** The alternatives of a group are tried in order; the first one with
    which the rest of the expression matches is taken. *)
Fixpoint alternatives {A} (alts : list (option (Z * string)))
    (k : Z -> string -> option A) : option A :=
  match alts with
  | [] => None
  | None :: rest => alternatives rest k
  | Some (v, s) :: rest =>
      match k v s with
      | Some r => Some r
      | None => alternatives rest k
      end
  end.

Definition literal (c : ascii) (s : string) : option string :=
  match s with
  | String c' s' => if Ascii.eqb c c' then Some s' else None
  | EmptyString => None
  end.

(** One digit of the class [[lo-hi]]. *)
Definition one (lo hi : Z) (s : string) : option (Z * string) :=
  match s with
  | String c s' => match in_class lo hi c with
                   | Some v => Some (v, s')
                   | None => None
                   end
  | EmptyString => None
  end.

(** Two digits, of the classes [[lo1-hi1]] and [[lo2-hi2]]. *)
Definition two (lo1 hi1 lo2 hi2 : Z) (s : string) : option (Z * string) :=
  match one lo1 hi1 s with
  | Some (a, s') => match one lo2 hi2 s' with
                    | Some (b, s'') => Some ((10 * a + b)%Z, s'')
                    | None => None
                    end
  | None => None
  end.

Definition group_Y (s : string) : option (Z * string) :=
  match two 0 9 0 9 s with
  | Some (hi, s') => match two 0 9 0 9 s' with
                     | Some (lo, s'') => Some ((100 * hi + lo)%Z, s'')
                     | None => None
                     end
  | None => None
  end.

Definition group_m (s : string) : list (option (Z * string)) :=
  [two 1 1 0 2 s; two 0 0 1 9 s; one 1 9 s].

Definition group_d (s : string) : list (option (Z * string)) :=
  [two 3 3 0 1 s; two 1 2 0 9 s; two 0 0 1 9 s; one 1 9 s;
   match literal " " s with Some s' => one 1 9 s' | None => None end].

Definition format_regex_match (s : string) : option (Z * Z * Z * string) :=
  match group_Y s with
  | Some (y, s1) =>
      match literal "-" s1 with
      | Some s2 =>
          alternatives (group_m s2) (fun m s3 =>
            match literal "-" s3 with
            | Some s4 =>
                alternatives (group_d s4) (fun d s5 => Some (y, m, d, s5))
            | None => None
            end)
      | None => None
      end
  | None => None
  end.

(** [None] stands for the [ValueError]. *)
Definition strptime (s : string) : option datetime :=
  match format_regex_match s with
  | Some (y, m, d, EmptyString) =>
      let date := mkDate y m d in
      if valid_dateb date then Some date else None
  | _ => None
  end.

(* ================================================================= *)
(** ** compute_risk *)

Definition HIGH_RISK_THRESHOLD : Q := 0.75.

Definition month_in (d : datetime) (ms : list Z) : bool :=
  existsb (Z.eqb (month d)) ms.

Definition monsoon_factor (d : datetime) : Q :=
  if month_in d [6; 7; 8; 9]%Z then 0.1 else 0.

Definition summer_factor (d : datetime) : Q :=
  if month_in d [4; 5]%Z then 0.05 else 0.

(** [a / b]: true division, which raises on a zero divisor. *)
Definition true_div (a b : Q) : M Q :=
  if Qeq_bool b 0 then raise ZeroDivisionError else ret (a / b).

Definition density_factor (density : Q) : Q :=
  fmin 0.15 (fmax 0.0 ((density / 30000) * 0.15)).

Definition compute_risk (base_risk : Q) (date : datetime) (population : Z)
    (area_sq_km : Q) : M pynum :=
  density <- true_div (inject_Z population) area_sq_km ;;
  noise <- uniform ;;
  let risk := base_risk + monsoon_factor date + summer_factor date
              + density_factor density + noise in
  ret (py_round2 (py_min (py_max (PyFloat risk) (PyInt 0)) (PyInt 1))).

(** *** The conversion of the population

    [population / area_sq_km] divides an [int] by a float: Python first
    converts the [int] to a float, and that conversion raises
    [OverflowError] when the [int] is too large for a double.  The
    populations of the table are 64-bit column values, which always
    convert; [compute_risk] above takes the conversion for granted.
    [compute_risk_int] writes it out. *)

(** From [2^1024 - 2^970] on an [int] rounds to [2^1024], which no double
    holds. *)
Definition float_limit : Z := (2 ^ 1024 - 2 ^ 970)%Z.

Definition fits_float (n : Z) : bool := (Z.abs n <? float_limit)%Z.

(** [float(n)] for an [int]. *)
Definition float_of_int (n : Z) : M Q :=
  if fits_float n then ret (inject_Z n) else raise OverflowError.

Definition compute_risk_int (base_risk : Q) (date : datetime) (population : Z)
    (area_sq_km : Q) : M pynum :=
  population_as_float <- float_of_int population ;;
  density <- true_div population_as_float area_sq_km ;;
  noise <- uniform ;;
  let risk := base_risk + monsoon_factor date + summer_factor date
              + density_factor density + noise in
  ret (py_round2 (py_min (py_max (PyFloat risk) (PyInt 0)) (PyInt 1))).

(* ================================================================= *)
(** ** Records *)

Record City : Type := mkCity {
  id : Z;
  name : string;
  state : string;
  area_sq_km : Q;
  population : Z;
  base_risk : Q;
  latitude : Q;
  longitude : Q
}.

Record RiskRequest : Type := mkRiskRequest {
  req_city : string;
  req_date : string
}.

Record RiskPredictionResponse : Type := mkRiskPredictionResponse {
  resp_city : string;
  resp_date : string;
  predicted_risk : pynum
}.

Record HealthTrendData : Type := mkHealthTrendData {
  date : string;
  risk_score : pynum
}.

Record CityHeatmapData : Type := mkCityHeatmapData {
  city : string;
  risk : pynum
}.

Record SummaryResponse : Type := mkSummaryResponse {
  highest_risk_city : CityHeatmapData;
  average_risk : pynum;
  total_cities : Z
}.

Record AlertResponse : Type := mkAlertResponse {
  alerts : list CityHeatmapData;
  count : Z
}.

(** The rows [init_cities] inserts into an empty table. *)
Definition cities_data : list City :=
  [ mkCity 1 "Delhi" "Delhi" 1500 20000000 0.65 28.6139 77.2090;
    mkCity 2 "Mumbai" "Maharashtra" 600 20000000 0.55 19.0760 72.8777;
    mkCity 3 "Bangalore" "Karnataka" 750 12000000 0.60 12.9716 77.5946;
    mkCity 4 "Kolkata" "West Bengal" 206 15000000 0.65 22.5726 88.3639;
    mkCity 5 "Chennai" "Tamil Nadu" 426 11000000 0.60 13.0827 80.2707 ].

(** [db.query(City).filter(City.name == n).first()] *)
Definition first_by_name (db : list City) (n : string) : option City :=
  find (fun c => String.eqb (name c) n) db.

(* ================================================================= *)
(** ** Handlers *)

Definition get_heatmap_data (db : list City) (today : datetime)
  : M (list CityHeatmapData) :=
  mapM (fun c =>
          r <- compute_risk (base_risk c) today (population c) (area_sq_km c) ;;
          ret (mkCityHeatmapData (name c) r)) db.

(** [range(6, -1, -1)] *)
Definition range_6_down : list nat := [6; 5; 4; 3; 2; 1; 0]%nat.

Definition get_trend (db : list City) (city : string) (today : datetime)
  : M (list HealthTrendData) :=
  match first_by_name db city with
  | None => raise NotFound
  | Some c =>
      mapM (fun i =>
              d <- sub_timedelta today i ;;
              r <- compute_risk (base_risk c) d (population c) (area_sq_km c) ;;
              ret (mkHealthTrendData (strftime d) r))
           range_6_down
  end.

Definition predict_risk (db : list City) (req : RiskRequest)
  : M RiskPredictionResponse :=
  match first_by_name db (req_city req) with
  | None => raise NotFound
  | Some c =>
      match strptime (req_date req) with
      | None => raise InvalidDate
      | Some date_obj =>
          risk_score <- compute_risk (base_risk c) date_obj (population c)
                                     (area_sq_km c) ;;
          ret (mkRiskPredictionResponse (name c) (req_date req) risk_score)
      end
  end.

(** [max(data, key=lambda x: x["risk"])]: a later item replaces the best
    one only when its key is strictly greater. *)
Fixpoint max_from (best : CityHeatmapData) (l : list CityHeatmapData)
  : CityHeatmapData :=
  match l with
  | [] => best
  | x :: l' =>
      max_from (if Qltb (val (risk best)) (val (risk x)) then x else best) l'
  end.

Definition max_by_risk (data : list CityHeatmapData) : M CityHeatmapData :=
  match data with
  | [] => raise ValueError
  | x :: l => ret (max_from x l)
  end.

(** [sum(d["risk"] for d in data)] *)
Definition sum_risk (data : list CityHeatmapData) : Q :=
  fold_left (fun acc d => acc + val (risk d)) data (inject_Z 0).

Definition len {A} (l : list A) : Z := Z.of_nat (List.length l).

Definition get_summary (db : list City) (today : datetime)
  : M SummaryResponse :=
  match db with
  | [] =>
      ret (mkSummaryResponse (mkCityHeatmapData "N/A" (PyInt 0)) (PyInt 0) 0)
  | _ =>
      data <- mapM (fun c =>
                      r <- compute_risk (base_risk c) today (population c)
                                        (area_sq_km c) ;;
                      ret (mkCityHeatmapData (name c) r)) db ;;
      highest <- max_by_risk data ;;
      mean <- true_div (sum_risk data) (inject_Z (len data)) ;;
      let avg := PyFloat (round2 mean) in
      ret (mkSummaryResponse highest avg (len db))
  end.

(** The comprehension of [get_alerts]: the condition is evaluated first,
    and the item only when the condition holds; each evaluation calls
    [compute_risk]. *)
Fixpoint alert_items (cities : list City) (today : datetime)
  : M (list CityHeatmapData) :=
  match cities with
  | [] => ret []
  | c :: rest =>
      r <- compute_risk (base_risk c) today (population c) (area_sq_km c) ;;
      if Qle_bool HIGH_RISK_THRESHOLD (val r) then
        r' <- compute_risk (base_risk c) today (population c) (area_sq_km c) ;;
        items <- alert_items rest today ;;
        ret (mkCityHeatmapData (name c) r' :: items)
      else alert_items rest today
  end.

Definition get_alerts (db : list City) (today : datetime) : M AlertResponse :=
  alerts <- alert_items db today ;;
  ret (mkAlertResponse alerts (len alerts)).

(** The comprehension of [chat]: as [alert_items], with formatted items. *)
Fixpoint high_risk_items (cities : list City) (today : datetime)
  : M (list string) :=
  match cities with
  | [] => ret []
  | c :: rest =>
      r <- compute_risk (base_risk c) today (population c) (area_sq_km c) ;;
      if Qle_bool HIGH_RISK_THRESHOLD (val r) then
        r' <- compute_risk (base_risk c) today (population c) (area_sq_km c) ;;
        items <- high_risk_items rest today ;;
        ret ((name c ++ " (" ++ str r' ++ ")") :: items)
      else high_risk_items rest today
  end.

(** The [for c in cities] loop of [chat]; [None] when the loop ends without
    a [return]. *)
Fixpoint chat_cities (cities : list City) (text : string) (today : datetime)
  : M (option string) :=
  match cities with
  | [] => ret None
  | c :: rest =>
      if contains (lower (name c)) text then
        if contains "risk" text then
          r <- compute_risk (base_risk c) today (population c) (area_sq_km c) ;;
          ret (Some ("The current health risk in " ++ name c ++ " is "
                     ++ str r ++ "."))
        else if contains "trend" text then
          ret (Some ("You can check the risk trend at /trend?city=" ++ name c))
        else chat_cities rest text today
      else chat_cities rest text today
  end.

(** What [chat] does after the loop. *)
Definition chat_keywords (cities : list City) (text : string) (today : datetime)
  : M string :=
  if contains "high risk" text || contains "alerts" text then
    high_risk <- high_risk_items cities today ;;
    match high_risk with
    | [] => ret "No high-risk cities right now."
    | _ => ret ("High-risk cities: " ++ join ", " high_risk)
    end
  else ret "Ask about a city's risk, risk trend, or high-risk alerts.".

Definition chat (db : list City) (query : string) (today : datetime)
  : M string :=
  let text := lower query in
  answer <- chat_cities db text today ;;
  match answer with
  | Some response => ret response
  | None => chat_keywords db text today
  end.

(* ================================================================= *)
(** ** The table: init_cities, create_city, read_cities *)

(** The body of [POST /cities/]. *)
Module CityBase.
Record t : Type := mk {
  name : string;
  state : string;
  population : Z;
  base_risk : Q;
  area_sq_km : Q;
  latitude : Q;
  longitude : Q
}.
End CityBase.

(** [init_cities]: the seed rows are inserted when the table has no row. *)
Definition init_cities (db : list City) : list City :=
  if (len db =? 0)%Z then (db ++ cities_data)%list else db.

(** The row built from the fields of the request, with the primary key the
    database gives it. *)
Definition new_row (rowid : Z) (city : CityBase.t) : City :=
  mkCity rowid (CityBase.name city) (CityBase.state city)
         (CityBase.area_sq_km city) (CityBase.population city)
         (CityBase.base_risk city) (CityBase.latitude city)
         (CityBase.longitude city).

(** [create_city]: the outcome and the table after the request; [rowid] is
    the primary key the database gives to a row it inserts. *)
Definition create_city (city : CityBase.t) (rowid : Z) (db : list City)
  : (exn + City) * list City :=
  match first_by_name db (CityBase.name city) with
  | Some _ => (inl (HTTPException 400 "City already exists"), db)
  | None =>
      let db_city := new_row rowid city in
      (inr db_city, (db ++ [db_city])%list)
  end.

(** What the database driver takes as an integer parameter: a signed
    64-bit value. *)
Definition fits_int64 (n : Z) : bool :=
  ((- 9223372036854775808 <=? n) && (n <? 9223372036854775808))%Z.

(** [read_cities]: [db.query(City).offset(skip).limit(limit).all()].  Binding
    an [int] outside the 64-bit range raises [OverflowError]; the database
    reads a negative offset as 0 and a negative limit as no limit. *)
Definition read_cities (skip limit : Z) (db : list City) : exn + list City :=
  if fits_int64 skip && fits_int64 limit then
    let rows := skipn (Z.to_nat skip) db in
    inr (if (limit <? 0)%Z then rows else firstn (Z.to_nat limit) rows)
  else inl OverflowError.

(* ================================================================= *)
(** ** Derived notions used in the statements *)

(** The value [compute_risk] returns once the density and the noise are
    known. *)
Definition score (base_risk : Q) (date : datetime) (density noise : Q)
  : pynum :=
  py_round2
    (py_min
       (py_max (PyFloat (base_risk + monsoon_factor date + summer_factor date
                         + density_factor density + noise))
               (PyInt 0))
       (PyInt 1)).

(** The random source after one more call. *)
Definition advance (g : random) (n : nat) : random :=
  mkRandom (outcome g) (n + calls g).

(** The density of a row, once the division has succeeded. *)
Definition density_of (c : City) : Q := inject_Z (population c) / area_sq_km c.

(** The score of a row at a date when the [k]-th next outcome of the source
    is the noise. *)
Definition score_at (c : City) (d : datetime) (g : random) (k : nat) : pynum :=
  score (base_risk c) d (density_of c) (outcome g (k + calls g)).

(** The entry of [get_trend] for the date [d], computed with the [k]-th
    next outcome of the source. *)
Definition trend_entry (c : City) (g : random) (k : nat) (d : datetime)
  : HealthTrendData :=
  mkHealthTrendData (strftime d) (score_at c d g k).

(** [d] has at least [n] days before it in the calendar's first month. *)
Definition has_room (d : datetime) (n : nat) : Prop :=
  (1 < year d \/ 1 < month d \/ Z.of_nat n < day d)%Z.

(** The items that [get_heatmap_data] and [get_summary] compute for the rows
    [db]: one outcome of the source for each row, in row order. *)
Fixpoint scores_from (db : list City) (d : datetime) (g : random)
  : list CityHeatmapData :=
  match db with
  | [] => []
  | c :: rest =>
      mkCityHeatmapData (name c) (score_at c d g 0)
      :: scores_from rest d (advance g 1)
  end.


(** The answer of [chat] in its "high risk" / "alerts" branch. *)
Definition high_risk_answer (cities : list City) (today : datetime)
  : M string :=
  high_risk <- high_risk_items cities today ;;
  match high_risk with
  | [] => ret "No high-risk cities right now."
  | _ => ret ("High-risk cities: " ++ join ", " high_risk)
  end.

Definition help_message : string :=
  "Ask about a city's risk, risk trend, or high-risk alerts.".

(** [small] is [big] with some items left out, the order kept. *)
Inductive subseq {A : Type} : list A -> list A -> Prop :=
| subseq_nil : subseq [] []
| subseq_skip : forall x small big, subseq small big -> subseq small (x :: big)
| subseq_keep : forall x small big,
    subseq small big -> subseq (x :: small) (x :: big).

(** An item of [get_alerts] as [chat] prints it. *)
Definition alert_text (x : CityHeatmapData) : string :=
  city x ++ " (" ++ str (risk x) ++ ")".


(** No two rows of the table have the same name. *)
Definition unique_names (db : list City) : Prop := NoDup (List.map name db).

(** The sum and the mean of a list of numbers, in the spec's words: the
    mean is the sum of the numbers divided by how many there are. *)
Fixpoint total (l : list Q) : Q :=
  match l with
  | [] => 0
  | x :: l' => x + total l'
  end.

Definition mean (l : list Q) : Q := total l / inject_Z (len l).

(** The scores of a list of items. *)
Definition risks (data : list CityHeatmapData) : list Q :=
  List.map (fun x => val (risk x)) data.

(** ** Sample inputs *)

Definition jan15 : datetime := mkDate 2025 1 15.
Definition may20 : datetime := mkDate 2025 5 20.
Definition jul04 : datetime := mkDate 2025 7 4.

(** A source whose every outcome is 0. *)
Definition steady : random := mkRandom (fun _ => 0) 0.

(** A source that alternates between outcomes near the two ends of the
    noise range. *)
Definition swing : random :=
  mkRandom (fun k => if Nat.even k then 0.029 else -(0.029)) 0.

(** Two rows with the same attributes under different names. *)
Definition twin_a : City := mkCity 1 "Alpha" "X" 1000 2000000 0.5 0 0.
Definition twin_b : City := mkCity 2 "Beta" "X" 1000 2000000 0.5 0 0.

Definition delhi : City :=
  mkCity 1 "Delhi" "Delhi" 1500 20000000 0.65 28.6139 77.2090.

(** A request for a city that the seed rows do not have, and one whose area
    is 0. *)
Definition pune : CityBase.t :=
  CityBase.mk "Pune" "Maharashtra" 7000000 0.5 500 18.5204 73.8567.
Definition flatland : CityBase.t :=
  CityBase.mk "Flatland" "Nowhere" 1000 0.5 0 0 0.

(* ================================================================= *)
(** * Properties *)

(** ** Comparisons and rounding *)

Lemma Qltb_lt (x y : Q) : Qltb x y = true <-> x < y.
Proof.
  unfold Qltb. rewrite negb_true_iff.
  split; intro H.
  - apply Qnot_le_lt. intro Hle. apply Qle_bool_iff in Hle. congruence.
  - destruct (Qle_bool y x) eqn:E; [|reflexivity].
    apply Qle_bool_iff in E. exfalso. apply (Qlt_not_le _ _ H E).
Qed.

Lemma Qltb_ge (x y : Q) : Qltb x y = false <-> y <= x.
Proof.
  unfold Qltb. rewrite negb_false_iff. apply Qle_bool_iff.
Qed.

Lemma fmax_spec (a b : Q) :
  a <= fmax a b /\ b <= fmax a b /\ (fmax a b = a \/ fmax a b = b).
Proof.
  unfold fmax. destruct (Qltb a b) eqn:E.
  - apply Qltb_lt in E. repeat split; auto; lra.
  - apply Qltb_ge in E. repeat split; auto; lra.
Qed.

Lemma fmin_spec (a b : Q) :
  fmin a b <= a /\ fmin a b <= b /\ (fmin a b = a \/ fmin a b = b).
Proof.
  unfold fmin. destruct (Qltb b a) eqn:E.
  - apply Qltb_lt in E. repeat split; auto; lra.
  - apply Qltb_ge in E. repeat split; auto; lra.
Qed.

Lemma floor_bounds (x : Q) : inject_Z (Qfloor x) <= x < inject_Z (Qfloor x) + 1.
Proof.
  split; [apply Qfloor_le|].
  pose proof (Qlt_floor x) as H.
  rewrite inject_Z_plus in H. exact H.
Qed.

(** Rounding stays between the integers that bound its argument. *)
Lemma round_half_even_between (x : Q) (a b : Z) :
  inject_Z a <= x -> x <= inject_Z b ->
  (a <= round_half_even x <= b)%Z.
Proof.
  intros Ha Hb. unfold round_half_even.
  destruct (floor_bounds x) as [Hf1 Hf2].
  set (f := Qfloor x) in *.
  assert (Hfb : (f <= b)%Z).
  { rewrite Zle_Qle. lra. }
  assert (Haf : (a <= f)%Z).
  { apply Z.lt_succ_r. rewrite Zlt_Qlt. unfold Z.succ. rewrite inject_Z_plus.
    change (inject_Z 1) with 1. lra. }
  assert (Hup : inject_Z f < x -> (f + 1 <= b)%Z).
  { intro Hlt. apply Z.le_succ_l. rewrite Zlt_Qlt. lra. }
  destruct (Qcompare (x - inject_Z f) (1 # 2)) eqn:E.
  - apply Qeq_alt in E. destruct (Z.even f); [lia|].
    split; [lia|]. apply Hup. lra.
  - lia.
  - apply Qgt_alt in E. split; [lia|]. apply Hup. lra.
Qed.

(** Rounding moves its argument by at most one half. *)
Lemma round_half_even_near (x : Q) :
  x - (1 # 2) <= inject_Z (round_half_even x) <= x + (1 # 2).
Proof.
  unfold round_half_even.
  destruct (floor_bounds x) as [Hf1 Hf2].
  set (f := Qfloor x) in *.
  destruct (Qcompare (x - inject_Z f) (1 # 2)) eqn:E.
  - apply Qeq_alt in E. destruct (Z.even f).
    + lra.
    + rewrite inject_Z_plus. change (inject_Z 1) with 1. lra.
  - apply Qlt_alt in E. lra.
  - apply Qgt_alt in E. rewrite inject_Z_plus. change (inject_Z 1) with 1. lra.
Qed.

Lemma round2_hundredths (x : Q) :
  round2 x == inject_Z (round_half_even (x * 100)) / 100.
Proof.
  unfold round2. rewrite (Qmake_Qdiv _ 100). reflexivity.
Qed.

Lemma round2_near (x : Q) : x - 0.005 <= round2 x <= x + 0.005.
Proof.
  pose proof (round_half_even_near (x * 100)) as H.
  pose proof (round2_hundredths x) as E.
  assert (E' : round2 x * 100 == inject_Z (round_half_even (x * 100))).
  { rewrite E. field. }
  split; lra.
Qed.

Lemma round2_unit (x : Q) : 0 <= x <= 1 -> 0 <= round2 x <= 1.
Proof.
  intros [H0 H1].
  destruct (round_half_even_between (x * 100) 0 100) as [Ha Hb].
  - change (inject_Z 0) with 0. lra.
  - change (inject_Z 100) with 100. lra.
  - unfold round2, Qle. simpl. lia.
Qed.

(** ** Rounding is monotone *)

Lemma floor_unique (x : Q) (f : Z) :
  inject_Z f <= x -> x < inject_Z f + 1 -> Qfloor x = f.
Proof.
  intros Hlo Hhi. destruct (floor_bounds x) as [H1 H2].
  assert (Ha : (f < Qfloor x + 1)%Z).
  { rewrite Zlt_Qlt, inject_Z_plus. change (inject_Z 1) with 1. lra. }
  assert (Hb : (Qfloor x < f + 1)%Z).
  { rewrite Zlt_Qlt, inject_Z_plus. change (inject_Z 1) with 1. lra. }
  lia.
Qed.

(** The two outcomes of [round_half_even], with what decides them. *)
Lemma round_half_even_cases (x : Q) :
  (round_half_even x = Qfloor x /\
   (x - inject_Z (Qfloor x) < 1 # 2 \/
    (x - inject_Z (Qfloor x) == 1 # 2 /\ Z.even (Qfloor x) = true))) \/
  (round_half_even x = (Qfloor x + 1)%Z /\
   (1 # 2 < x - inject_Z (Qfloor x) \/
    (x - inject_Z (Qfloor x) == 1 # 2 /\ Z.even (Qfloor x) = false))).
Proof.
  unfold round_half_even.
  destruct (Qcompare (x - inject_Z (Qfloor x)) (1 # 2)) eqn:E.
  - apply Qeq_alt in E. destruct (Z.even (Qfloor x)) eqn:Ev.
    + left. split; [reflexivity|]. right. split; [exact E | reflexivity].
    + right. split; [reflexivity|]. right. split; [exact E | reflexivity].
  - apply Qlt_alt in E. left. split; [reflexivity|]. left. exact E.
  - apply Qgt_alt in E. right. split; [reflexivity|]. left. exact E.
Qed.

Lemma round_half_even_mono (x y : Q) :
  x <= y -> (round_half_even x <= round_half_even y)%Z.
Proof.
  intro Hxy.
  pose proof (Qfloor_resp_le _ _ Hxy) as Hf.
  destruct (Z.eq_dec (Qfloor x) (Qfloor y)) as [Heq | Hne].
  - destruct (round_half_even_cases x) as [[-> Hx] | [-> Hx]];
      destruct (round_half_even_cases y) as [[-> Hy] | [-> Hy]];
      try lia.
    exfalso. rewrite <- Heq in Hy.
    destruct Hx as [Hx | [Hx Ex]]; destruct Hy as [Hy | [Hy Ey]];
      try lra; congruence.
  - assert (Hlt : (Qfloor x + 1 <= Qfloor y)%Z) by lia.
    destruct (round_half_even_cases x) as [[-> _] | [-> _]];
      destruct (round_half_even_cases y) as [[-> _] | [-> _]]; lia.
Qed.

Lemma round_half_even_eq (x y : Q) :
  x == y -> round_half_even x = round_half_even y.
Proof.
  intro H. apply Z.le_antisymm; apply round_half_even_mono; lra.
Qed.

Lemma round2_mono (x y : Q) : x <= y -> round2 x <= round2 y.
Proof.
  intro H. unfold round2, Qle. cbn [Qnum Qden].
  assert (Hm : (round_half_even (x * 100) <= round_half_even (y * 100))%Z)
    by (apply round_half_even_mono; lra).
  lia.
Qed.

Lemma round2_eq (x y : Q) : x == y -> round2 x == round2 y.
Proof.
  intro H. apply Qle_antisym; apply round2_mono; lra.
Qed.

(** A whole number of hundredths is left as it is. *)
Lemma round2_fixed (n : Z) : round2 (n # 100) == n # 100.
Proof.
  assert (E : round_half_even ((n # 100) * 100) = n).
  { assert (Hq : (n # 100) * 100 == inject_Z n).
    { unfold Qeq, Qmult, inject_Z. cbn [Qnum Qden]. lia. }
    destruct (round_half_even_between ((n # 100) * 100) n n); lra || lia. }
  unfold round2. rewrite E. reflexivity.
Qed.

(* ================================================================= *)
(** ** compute_risk *)

Lemma true_div_ok (a b : Q) (g : random) :
  ~ b == 0 -> true_div a b g = inr (a / b, g).
Proof.
  intro Hb. unfold true_div.
  destruct (Qeq_bool b 0) eqn:E; [|reflexivity].
  apply Qeq_bool_iff in E. contradiction.
Qed.

Lemma true_div_zero (a b : Q) (g : random) :
  b == 0 -> true_div a b g = inl ZeroDivisionError.
Proof.
  intro Hb. unfold true_div.
  apply Qeq_bool_iff in Hb. rewrite Hb. reflexivity.
Qed.

Lemma compute_risk_ok base_risk date population area (g : random) :
  ~ area == 0 ->
  compute_risk base_risk date population area g =
  inr (score base_risk date (inject_Z population / area) (outcome g (calls g)),
       advance g 1).
Proof.
  intro Ha. unfold compute_risk, bind.
  rewrite (true_div_ok _ _ _ Ha). reflexivity.
Qed.

Lemma compute_risk_zero_area base_risk date population area (g : random) :
  area == 0 ->
  compute_risk base_risk date population area g = inl ZeroDivisionError.
Proof.
  intro Ha. unfold compute_risk, bind.
  rewrite (true_div_zero _ _ _ Ha). reflexivity.
Qed.

(** The three shapes of a score: the [int] 0 below the range, the [int] 1
    above it, the rounded [float] inside it. *)
Lemma score_cases base_risk date density noise :
  let risk := base_risk + monsoon_factor date + summer_factor date
              + density_factor density + noise in
  (risk < 0 /\ score base_risk date density noise = PyInt 0) \/
  (1 < risk /\ score base_risk date density noise = PyInt 1) \/
  (0 <= risk <= 1 /\ score base_risk date density noise = PyFloat (round2 risk)).
Proof.
  intro risk. unfold score. fold risk.
  unfold py_max. cbn [val].
  destruct (Qltb risk (inject_Z 0)) eqn:E0.
  - apply Qltb_lt in E0. change (inject_Z 0) with 0 in E0.
    left. split; [exact E0|]. reflexivity.
  - apply Qltb_ge in E0. change (inject_Z 0) with 0 in E0.
    unfold py_min. cbn [val].
    destruct (Qltb (inject_Z 1) risk) eqn:E1.
    + apply Qltb_lt in E1. change (inject_Z 1) with 1 in E1.
      right; left. split; [exact E1|]. reflexivity.
    + apply Qltb_ge in E1. change (inject_Z 1) with 1 in E1.
      right; right. split; [split; assumption|]. reflexivity.
Qed.

Lemma score_range base_risk date density noise :
  0 <= val (score base_risk date density noise) <= 1.
Proof.
  destruct (score_cases base_risk date density noise) as [[_ ->]|[[_ ->]|[H ->]]].
  - cbn [val]. split; unfold Qle; simpl; lia.
  - cbn [val]. split; unfold Qle; simpl; lia.
  - cbn [val]. apply round2_unit. exact H.
Qed.

Lemma score_hundredths base_risk date density noise :
  exists n : Z, (0 <= n <= 100)%Z /\
                val (score base_risk date density noise) == n # 100.
Proof.
  destruct (score_cases base_risk date density noise) as [[_ ->]|[[_ ->]|[H ->]]].
  - exists 0%Z. split; [lia|]. reflexivity.
  - exists 100%Z. split; [lia|]. reflexivity.
  - eexists. split; [|cbn [val]; unfold round2; reflexivity].
    apply round_half_even_between.
    + change (inject_Z 0) with 0. lra.
    + change (inject_Z 100) with 100. lra.
Qed.

(** A score that reaches the threshold with one noise is at least 0.68
    with any other noise of the range. *)
Lemma score_after_threshold base_risk date density noise noise' :
  -(0.03) <= noise <= 0.03 -> -(0.03) <= noise' <= 0.03 ->
  HIGH_RISK_THRESHOLD <= val (score base_risk date density noise) ->
  0.68 <= val (score base_risk date density noise').
Proof.
  unfold HIGH_RISK_THRESHOLD. intros Hn Hn'.
  destruct (score_cases base_risk date density noise) as [[H ->]|[[H ->]|[H ->]]];
    destruct (score_cases base_risk date density noise') as [[H' ->]|[[H' ->]|[H' ->]]];
    cbn [val]; change (inject_Z 0) with 0; change (inject_Z 1) with 1;
    intro Hthr;
    try pose proof (round2_near
                      (base_risk + monsoon_factor date + summer_factor date
                       + density_factor density + noise));
    try pose proof (round2_near
                      (base_risk + monsoon_factor date + summer_factor date
                       + density_factor density + noise'));
    lra.
Qed.


Example compute_risk_seasons :
  compute_risk 0.65 jan15 20000000 1500 steady = inr (PyFloat 0.72, advance steady 1) /\
  compute_risk 0.65 may20 20000000 1500 steady = inr (PyFloat 0.77, advance steady 1) /\
  compute_risk 0.65 jul04 20000000 1500 steady = inr (PyFloat 0.82, advance steady 1) /\
  compute_risk 0.99 jul04 20000000 1500 steady = inr (PyInt 1, advance steady 1) /\
  compute_risk (-(0.5)) jan15 20000000 1500 steady = inr (PyInt 0, advance steady 1).
Proof. repeat split; vm_compute; reflexivity. Qed.

Lemma steady_in_range : in_range steady.
Proof. intro k. cbn. split; unfold Qle; simpl; lia. Qed.

Lemma swing_in_range : in_range swing.
Proof.
  intro k. cbn. destruct (Nat.even k); split; unfold Qle; simpl; lia.
Qed.


(** ** The seasonal term *)

Lemma month_in_iff (d : datetime) (ms : list Z) :
  month_in d ms = true <-> In (month d) ms.
Proof.
  unfold month_in. rewrite existsb_exists. split.
  - intros [m [Hin Heq]]. apply Z.eqb_eq in Heq. subst. exact Hin.
  - intro Hin. exists (month d). split; [exact Hin | apply Z.eqb_refl].
Qed.

(** C5: the seasonal part of the sum in [compute_risk] is 0.10 in the
    months 6 to 9, 0.05 in the months 4 and 5, and 0 in every other month;
    the monsoon and the summer factor are never both nonzero. *)
Theorem seasonal_contribution :
  forall d : datetime,
    (In (month d) [6; 7; 8; 9]%Z ->
       monsoon_factor d + summer_factor d == 0.1) /\
    (In (month d) [4; 5]%Z ->
       monsoon_factor d + summer_factor d == 0.05) /\
    (~ In (month d) [4; 5; 6; 7; 8; 9]%Z ->
       monsoon_factor d + summer_factor d == 0) /\
    ~ (~ monsoon_factor d == 0 /\ ~ summer_factor d == 0).
Proof.
  intro d. unfold monsoon_factor, summer_factor.
  destruct (month_in d [6; 7; 8; 9]%Z) eqn:Em;
    destruct (month_in d [4; 5]%Z) eqn:Es.
  - apply month_in_iff in Em. apply month_in_iff in Es.
    exfalso. cbn in Em, Es. lia.
  - apply month_in_iff in Em.
    split; [|split; [|split]].
    + intros _. reflexivity.
    + intro H. exfalso. cbn in Em, H. lia.
    + intro H. exfalso. apply H. cbn in Em |- *. tauto.
    + intros [_ H]. apply H. reflexivity.
  - apply month_in_iff in Es.
    split; [|split; [|split]].
    + intro H. exfalso. cbn in Es, H. lia.
    + intros _. reflexivity.
    + intro H. exfalso. apply H. cbn in Es |- *. tauto.
    + intros [H _]. apply H. reflexivity.
  - split; [|split; [|split]].
    + intro H. apply month_in_iff in H. congruence.
    + intro H. apply month_in_iff in H. congruence.
    + intros _. reflexivity.
    + intros [H _]. apply H. reflexivity.
Qed.

Lemma seasonal_contribution_witness :
  monsoon_factor jul04 + summer_factor jul04 == 0.1 /\
  monsoon_factor may20 + summer_factor may20 == 0.05 /\
  monsoon_factor jan15 + summer_factor jan15 == 0.
Proof.
  split; [|split].
  - apply (seasonal_contribution jul04). cbn. lia.
  - apply (seasonal_contribution may20). cbn. lia.
  - apply (seasonal_contribution jan15). cbn. lia.
Defined.

(** ** The density factor *)

Lemma density_scale (d : Q) : d / 30000 * 0.15 == d * (1 # 200000).
Proof. field. Qed.

Lemma density_factor_bounds (d : Q) : 0 <= density_factor d <= 0.15.
Proof.
  unfold density_factor.
  destruct (fmin_spec 0.15 (fmax 0.0 (d / 30000 * 0.15))) as [H1 [H2 H3]].
  destruct (fmax_spec 0.0 (d / 30000 * 0.15)) as [H4 [H5 H6]].
  split; [|exact H1].
  destruct H3 as [-> | ->]; lra.
Qed.

Lemma fmax_mono (a x y : Q) : x <= y -> fmax a x <= fmax a y.
Proof.
  intro H. unfold fmax.
  destruct (Qltb a x) eqn:E1; destruct (Qltb a y) eqn:E2;
    try apply Qltb_lt in E1; try apply Qltb_lt in E2;
    try apply Qltb_ge in E1; try apply Qltb_ge in E2; lra.
Qed.

Lemma fmin_mono (a x y : Q) : x <= y -> fmin a x <= fmin a y.
Proof.
  intro H. unfold fmin.
  destruct (Qltb x a) eqn:E1; destruct (Qltb y a) eqn:E2;
    try apply Qltb_lt in E1; try apply Qltb_lt in E2;
    try apply Qltb_ge in E1; try apply Qltb_ge in E2; lra.
Qed.

Lemma density_factor_mono (d1 d2 : Q) :
  d1 <= d2 -> density_factor d1 <= density_factor d2.
Proof.
  intro H. unfold density_factor.
  apply fmin_mono, fmax_mono. rewrite !density_scale. lra.
Qed.

Lemma density_factor_linear (d : Q) :
  0 <= d <= 30000 -> density_factor d == d / 30000 * 0.15.
Proof.
  intros [H0 H1]. pose proof (density_scale d) as Hs.
  unfold density_factor, fmin, fmax.
  destruct (Qltb 0.0 (d / 30000 * 0.15)) eqn:E1.
  - destruct (Qltb (d / 30000 * 0.15) 0.15) eqn:E2; [reflexivity|].
    apply Qltb_ge in E2. lra.
  - apply Qltb_ge in E1.
    destruct (Qltb 0.0 0.15) eqn:E2; [lra|].
    apply Qltb_ge in E2. lra.
Qed.

Lemma density_factor_cap (d : Q) : 30000 <= d -> density_factor d == 0.15.
Proof.
  intro H.
  pose proof (density_factor_bounds d) as [_ Hub].
  pose proof (density_factor_mono 30000 d H) as Hm.
  assert (E : density_factor 30000 == 0.15) by reflexivity.
  lra.
Qed.

Lemma density_factor_below_cap (d : Q) : d < 30000 -> density_factor d < 0.15.
Proof.
  intro H. destruct (Qlt_le_dec d 0) as [Hneg | Hpos].
  - pose proof (density_factor_mono d 0 (Qlt_le_weak _ _ Hneg)) as Hm.
    assert (E : density_factor 0 == 0) by reflexivity. lra.
  - rewrite density_factor_linear by (split; lra).
    rewrite density_scale. lra.
Qed.

(** C6: for positive areas the density factor does not decrease when the
    density [population / area_sq_km] grows, it lies between 0 and 0.15,
    and it is 0.15 from the density 30000 on and smaller below it. *)
Theorem density_factor_monotone_capped :
  forall (population1 population2 : Z) (area1 area2 : Q),
    0 < area1 -> 0 < area2 ->
    let density1 := inject_Z population1 / area1 in
    let density2 := inject_Z population2 / area2 in
    (density1 <= density2 ->
       density_factor density1 <= density_factor density2) /\
    0 <= density_factor density1 <= 0.15 /\
    (30000 <= density1 -> density_factor density1 == 0.15) /\
    (density1 < 30000 -> density_factor density1 < 0.15).
Proof.
  intros p1 p2 a1 a2 _ _ d1 d2.
  split; [apply density_factor_mono|].
  split; [apply density_factor_bounds|].
  split; [apply density_factor_cap | apply density_factor_below_cap].
Qed.

Lemma density_factor_monotone_capped_witness :
  0 < 1500 /\ 0 < 600 /\
  (inject_Z 20000000 / 1500 <= inject_Z 20000000 / 600 ->
     density_factor (inject_Z 20000000 / 1500)
     <= density_factor (inject_Z 20000000 / 600)) /\
  0 <= density_factor (inject_Z 20000000 / 1500) <= 0.15 /\
  (30000 <= inject_Z 20000000 / 1500 ->
     density_factor (inject_Z 20000000 / 1500) == 0.15) /\
  (inject_Z 20000000 / 1500 < 30000 ->
     density_factor (inject_Z 20000000 / 1500) < 0.15).
Proof.
  split; [reflexivity|]. split; [reflexivity|].
  apply (density_factor_monotone_capped 20000000 20000000 1500 600);
    reflexivity.
Defined.

(** ** Errors of compute_risk *)

Lemma fits_float_iff (n : Z) :
  fits_float n = true <-> (Z.abs n < float_limit)%Z.
Proof. unfold fits_float. apply Z.ltb_lt. Qed.

(** Every 64-bit integer converts. *)
Lemma int64_fits_float (n : Z) :
  (- 9223372036854775808 <= n < 9223372036854775808)%Z -> fits_float n = true.
Proof.
  intro H. apply fits_float_iff.
  assert (Hlim : (9223372036854775808 < float_limit)%Z)
    by (vm_compute; reflexivity).
  apply Z.le_lt_trans with (m := 9223372036854775808%Z); [lia | exact Hlim].
Qed.

(** On a population that converts, [compute_risk_int] is [compute_risk]. *)
Lemma compute_risk_int_fits base_risk date population area (g : random) :
  fits_float population = true ->
  compute_risk_int base_risk date population area g
  = compute_risk base_risk date population area g.
Proof.
  intro Hfit. unfold compute_risk_int, compute_risk, float_of_int.
  rewrite Hfit. reflexivity.
Qed.

(** Against C8 as stated: with the positive area 1 and the population
    10^400 the division raises [OverflowError]. *)
Lemma compute_risk_huge_population_overflows :
  0 < 1 /\
  compute_risk_int 0.5 jan15 (10 ^ 400) 1 steady = inl OverflowError.
Proof.
  split; [reflexivity|]. vm_compute. reflexivity.
Qed.

(** C8, amended: [compute_risk] has three outcomes.  With a population
    that converts to a float (its magnitude below [2^1024 - 2^970]) and a
    positive area it returns a value; with such a population and the area
    0 the division raises [ZeroDivisionError]; with a population that does
    not convert it raises [OverflowError], whatever the area. *)
Theorem compute_risk_error_conditions :
  forall base_risk date population area (g : random),
    ((Z.abs population < float_limit)%Z -> 0 < area ->
       exists r g',
         compute_risk_int base_risk date population area g = inr (r, g')) /\
    ((Z.abs population < float_limit)%Z -> area == 0 ->
       compute_risk_int base_risk date population area g
       = inl ZeroDivisionError) /\
    ((float_limit <= Z.abs population)%Z ->
       compute_risk_int base_risk date population area g
       = inl OverflowError).
Proof.
  intros base_risk date population area g. split; [|split].
  - intros Hfit Ha. apply fits_float_iff in Hfit.
    rewrite (compute_risk_int_fits _ _ _ _ _ Hfit).
    eexists. eexists. apply compute_risk_ok. lra.
  - intros Hfit Ha. apply fits_float_iff in Hfit.
    rewrite (compute_risk_int_fits _ _ _ _ _ Hfit).
    apply compute_risk_zero_area. exact Ha.
  - intro Hbig.
    assert (Hno : fits_float population = false).
    { unfold fits_float. apply Z.ltb_ge. exact Hbig. }
    unfold compute_risk_int, float_of_int, bind. rewrite Hno. reflexivity.
Qed.

Lemma compute_risk_error_conditions_witness :
  (exists r g', compute_risk_int 0.65 jan15 20000000 1500 steady = inr (r, g')) /\
  compute_risk_int 0.65 jan15 20000000 0 steady = inl ZeroDivisionError /\
  compute_risk_int 0.65 jan15 (10 ^ 400) 0 steady = inl OverflowError.
Proof.
  split; [|split].
  - apply (compute_risk_error_conditions 0.65 jan15 20000000 1500 steady).
    + vm_compute. reflexivity.
    + reflexivity.
  - apply (compute_risk_error_conditions 0.65 jan15 20000000 0 steady).
    + vm_compute. reflexivity.
    + reflexivity.
  - apply (compute_risk_error_conditions 0.65 jan15 (10 ^ 400) 0 steady).
    vm_compute. discriminate.
Defined.

(** ** Noise *)

(** C9: two successive calls of [compute_risk] with the same arguments, on
    a source whose outcomes stay in [-0.03, 0.03], can return different
    values. *)
Theorem compute_risk_not_deterministic :
  exists base_risk date population area (g : random) r1 r2 g',
    in_range g /\ 0 < area /\
    (r1 <- compute_risk base_risk date population area ;;
     r2 <- compute_risk base_risk date population area ;;
     ret (r1, r2)) g = inr ((r1, r2), g') /\
    ~ val r1 == val r2.
Proof.
  exists 0.65, jan15, 20000000%Z, 1500, swing.
  exists (PyFloat 0.75), (PyFloat 0.69), (advance swing 2).
  split; [apply swing_in_range|].
  split; [reflexivity|].
  split; [vm_compute; reflexivity|].
  cbn [val]. unfold Qeq. simpl. lia.
Qed.

(* ================================================================= *)
(** ** The store *)

Lemma first_by_name_some (db : list City) (n : string) (c : City) :
  first_by_name db n = Some c -> In c db /\ name c = n.
Proof.
  unfold first_by_name. intro H. apply find_some in H.
  destruct H as [Hin Heq]. split; [exact Hin|].
  apply String.eqb_eq. exact Heq.
Qed.

Lemma first_by_name_none (db : list City) (n : string) :
  first_by_name db n = None <-> (forall c, In c db -> name c <> n).
Proof.
  unfold first_by_name. split.
  - intros H c Hin Heq.
    pose proof (find_none _ _ H c Hin) as Hf. cbn in Hf.
    apply String.eqb_neq in Hf. contradiction.
  - intro H. destruct (find _ db) as [c|] eqn:E; [|reflexivity].
    apply find_some in E. destruct E as [Hin Heq].
    apply String.eqb_eq in Heq. exfalso. exact (H c Hin Heq).
Qed.

Lemma first_by_name_match (db : list City) (n : string) :
  (exists c, In c db /\ name c = n) ->
  exists c, first_by_name db n = Some c /\ In c db /\ name c = n.
Proof.
  intros [c [Hin Heq]].
  destruct (first_by_name db n) as [c'|] eqn:E.
  - exists c'. split; [reflexivity|]. apply first_by_name_some. exact E.
  - exfalso. rewrite first_by_name_none in E. exact (E c Hin Heq).
Qed.

Lemma row_risk_ok (c : City) (d : datetime) (g : random) :
  ~ area_sq_km c == 0 ->
  compute_risk (base_risk c) d (population c) (area_sq_km c) g
  = inr (score_at c d g 0, advance g 1).
Proof.
  intro Ha. rewrite compute_risk_ok by exact Ha. reflexivity.
Qed.

Lemma row_risk_zero_area (c : City) (d : datetime) (g : random) :
  area_sq_km c == 0 ->
  compute_risk (base_risk c) d (population c) (area_sq_km c) g
  = inl ZeroDivisionError.
Proof.
  intro Ha. apply compute_risk_zero_area. exact Ha.
Qed.

(* ================================================================= *)
(** ** predict_risk *)

(** Against C3 as stated: for an unknown city and an unparsable date the
    handler reports the unknown city, not the date. *)
Lemma predict_risk_unknown_city_bad_date :
  strptime "2024-13-01" = None /\
  (forall c, In c cities_data -> name c <> "Atlantis") /\
  predict_risk cities_data (mkRiskRequest "Atlantis" "2024-13-01") steady
  = inl NotFound /\
  predict_risk cities_data (mkRiskRequest "Atlantis" "2024-13-01") steady
  <> inl InvalidDate.
Proof.
  split; [reflexivity|].
  split; [apply first_by_name_none; reflexivity|].
  split; [reflexivity | discriminate].
Qed.

(** C3, amended: the city is looked up first.  A request whose city has no
    exact match fails with NotFound, whatever its date string; a request
    whose city has a match fails with InvalidDate when the date string does
    not parse, and otherwise returns the score computed once for the parsed
    date, for the first matching row (its area being nonzero). *)
Theorem predict_risk_lookup_then_parse :
  forall (db : list City) (req : RiskRequest) (g : random),
    ((forall c, In c db -> name c <> req_city req) ->
       predict_risk db req g = inl NotFound) /\
    ((exists c, In c db /\ name c = req_city req) ->
       exists c, first_by_name db (req_city req) = Some c /\
                 In c db /\ name c = req_city req /\
         (strptime (req_date req) = None ->
            predict_risk db req g = inl InvalidDate) /\
         (forall d, strptime (req_date req) = Some d ->
            ~ area_sq_km c == 0 ->
            predict_risk db req g =
            inr (mkRiskPredictionResponse (name c) (req_date req)
                                          (score_at c d g 0),
                 advance g 1))).
Proof.
  intros db req g. split.
  - intro Hno. apply first_by_name_none in Hno.
    unfold predict_risk. rewrite Hno. reflexivity.
  - intro Hex. destruct (first_by_name_match _ _ Hex) as [c [Hf [Hin Hn]]].
    exists c. split; [exact Hf|]. split; [exact Hin|]. split; [exact Hn|].
    unfold predict_risk. rewrite Hf. split.
    + intros ->. reflexivity.
    + intros d -> Ha. unfold bind. rewrite row_risk_ok by exact Ha.
      reflexivity.
Qed.

Lemma predict_risk_lookup_then_parse_witness :
  predict_risk cities_data (mkRiskRequest "Atlantis" "2024-13-01") steady
  = inl NotFound /\
  predict_risk cities_data (mkRiskRequest "Delhi" "2024-13-01") steady
  = inl InvalidDate /\
  predict_risk cities_data (mkRiskRequest "Delhi" "2024-07-01") steady
  = inr (mkRiskPredictionResponse "Delhi" "2024-07-01" (PyFloat 0.82),
         advance steady 1).
Proof.
  split.
  - apply (predict_risk_lookup_then_parse cities_data
             (mkRiskRequest "Atlantis" "2024-13-01") steady).
    apply first_by_name_none. reflexivity.
  - destruct (predict_risk_lookup_then_parse cities_data
                (mkRiskRequest "Delhi" "2024-13-01") steady) as [_ H1].
    destruct (predict_risk_lookup_then_parse cities_data
                (mkRiskRequest "Delhi" "2024-07-01") steady) as [_ H2].
    split.
    + destruct H1 as [c [_ [_ [_ [H _]]]]].
      * exists delhi. split; [left; reflexivity | reflexivity].
      * apply H. reflexivity.
    + destruct H2 as [c [Hf [_ [_ [_ H]]]]].
      * exists delhi. split; [left; reflexivity | reflexivity].
      * vm_compute in Hf. injection Hf as <-.
        apply (H (mkDate 2024 7 1)); [reflexivity | discriminate].
Defined.

(* ================================================================= *)
(** ** Calendar arithmetic *)

Lemma valid_date_iff (d : datetime) :
  valid_date d <->
  (1 <= year d <= 9999 /\ 1 <= month d <= 12 /\
   1 <= day d <= days_in_month (year d) (month d))%Z.
Proof.
  unfold valid_date, valid_dateb.
  rewrite !andb_true_iff, !Z.leb_le. tauto.
Qed.

Lemma days_in_month_bounds (y m : Z) : (28 <= days_in_month y m <= 31)%Z.
Proof.
  unfold days_in_month.
  destruct (m =? 2)%Z; [destruct (is_leap y); lia|].
  destruct (existsb _ _); lia.
Qed.

(** One day back from a valid date: the result is a valid date, earlier in
    the calendar, unless the date is 0001-01-01. *)
Lemma prev_day_valid (d : datetime) (n : nat) :
  valid_date d -> (n <= 27)%nat -> has_room d (S n) ->
  exists d', prev_day d = Some d' /\ valid_date d' /\ has_room d' n /\
             date_lt d' d.
Proof.
  rewrite valid_date_iff. intros [Hy [Hm Hd]] Hn Hroom.
  unfold prev_day, has_room in *.
  destruct (1 <? day d)%Z eqn:E1.
  - apply Z.ltb_lt in E1. eexists. split; [reflexivity|].
    rewrite valid_date_iff. unfold date_lt. cbn. lia.
  - apply Z.ltb_ge in E1.
    destruct (1 <? month d)%Z eqn:E2.
    + apply Z.ltb_lt in E2. eexists. split; [reflexivity|].
      rewrite valid_date_iff. unfold date_lt. cbn.
      pose proof (days_in_month_bounds (year d) (month d - 1)). lia.
    + apply Z.ltb_ge in E2.
      destruct (1 <? year d)%Z eqn:E3.
      * apply Z.ltb_lt in E3. eexists. split; [reflexivity|].
        rewrite valid_date_iff. unfold date_lt. cbn. lia.
      * apply Z.ltb_ge in E3. lia.
Qed.

Lemma days_before_valid (n : nat) :
  forall d, valid_date d -> (n <= 28)%nat -> has_room d n ->
  exists d', days_before d n = Some d' /\ valid_date d'.
Proof.
  induction n as [|n IH]; intros d Hv Hn Hroom.
  - exists d. split; [reflexivity | exact Hv].
  - destruct (prev_day_valid d n Hv ltac:(lia) Hroom) as [d1 [Hp [Hv1 [Hr1 _]]]].
    destruct (IH d1 Hv1 ltac:(lia) Hr1) as [d' [Hd' Hv']].
    exists d'. split; [|exact Hv']. cbn. rewrite Hp. exact Hd'.
Qed.

(** [days_before d (S n)] is the day before [days_before d n]. *)
Lemma days_before_S (n : nat) :
  forall d d', days_before d (S n) = Some d' ->
  exists d1, days_before d n = Some d1 /\ prev_day d1 = Some d'.
Proof.
  induction n as [|n IH]; intros d d' H.
  - cbn in H. destruct (prev_day d) as [d1|] eqn:E; [|discriminate].
    injection H as <-. exists d. split; [reflexivity | exact E].
  - change (days_before d (S (S n))) with
      (match prev_day d with Some x => days_before x (S n) | None => None end) in H.
    destruct (prev_day d) as [d0|] eqn:E; [|discriminate].
    destruct (IH d0 d' H) as [d1 [H1 H2]].
    exists d1. split; [|exact H2]. cbn. rewrite E. exact H1.
Qed.

Lemma prev_day_lt (d d' : datetime) :
  valid_date d -> prev_day d = Some d' -> valid_date d' /\ date_lt d' d.
Proof.
  intros Hv Hp.
  assert (Hroom : has_room d 1).
  { unfold has_room. unfold prev_day in Hp.
    destruct (1 <? day d)%Z eqn:E1; [apply Z.ltb_lt in E1; cbn; lia|].
    destruct (1 <? month d)%Z eqn:E2; [apply Z.ltb_lt in E2; lia|].
    destruct (1 <? year d)%Z eqn:E3; [apply Z.ltb_lt in E3; lia|].
    discriminate. }
  destruct (prev_day_valid d 0 Hv ltac:(lia) Hroom) as [d1 [Hp1 [Hv1 [_ Hlt]]]].
  rewrite Hp in Hp1. injection Hp1 as <-. split; assumption.
Qed.

(** The seven days that end at [today], oldest first. *)
Lemma window_dates (today : datetime) :
  valid_date today -> has_room today 6 ->
  exists d0 d1 d2 d3 d4 d5,
    days_before today 6 = Some d0 /\ days_before today 5 = Some d1 /\
    days_before today 4 = Some d2 /\ days_before today 3 = Some d3 /\
    days_before today 2 = Some d4 /\ days_before today 1 = Some d5 /\
    date_lt d0 d1 /\ date_lt d1 d2 /\ date_lt d2 d3 /\ date_lt d3 d4 /\
    date_lt d4 d5 /\ date_lt d5 today /\
    Forall valid_date [d0; d1; d2; d3; d4; d5].
Proof.
  intros Hv Hroom.
  destruct (days_before_valid 6 today Hv ltac:(lia) Hroom) as [d0 [H0 _]].
  destruct (days_before_S _ _ _ H0) as [d1 [H1 P0]].
  destruct (days_before_S _ _ _ H1) as [d2 [H2 P1]].
  destruct (days_before_S _ _ _ H2) as [d3 [H3 P2]].
  destruct (days_before_S _ _ _ H3) as [d4 [H4 P3]].
  destruct (days_before_S _ _ _ H4) as [d5 [H5 P4]].
  destruct (days_before_S _ _ _ H5) as [d6 [H6 P5]].
  cbn in H6. injection H6 as <-.
  destruct (prev_day_lt _ _ Hv P5) as [V5 L5].
  destruct (prev_day_lt _ _ V5 P4) as [V4 L4].
  destruct (prev_day_lt _ _ V4 P3) as [V3 L3].
  destruct (prev_day_lt _ _ V3 P2) as [V2 L2].
  destruct (prev_day_lt _ _ V2 P1) as [V1 L1].
  destruct (prev_day_lt _ _ V1 P0) as [V0 L0].
  exists d0, d1, d2, d3, d4, d5.
  repeat (split; [assumption|]).
  repeat constructor; assumption.
Qed.

(* ================================================================= *)
(** ** Printing and parsing dates *)

Lemma digit_val_digit_char (n : Z) :
  digit_val (digit_char n) = Some (n mod 10)%Z.
Proof.
  unfold digit_val, digit_char.
  pose proof (Z.mod_pos_bound n 10 ltac:(lia)) as Hm.
  rewrite nat_ascii_embedding by lia.
  replace ((48 <=? 48 + Z.to_nat (n mod 10))%nat) with true
    by (symmetry; apply Nat.leb_le; lia).
  replace ((48 + Z.to_nat (n mod 10) <=? 57)%nat) with true
    by (symmetry; apply Nat.leb_le; lia).
  cbn [andb]. f_equal. lia.
Qed.

Lemma one_digit_char (lo hi n : Z) (s : string) :
  one lo hi (String (digit_char n) s) =
  if ((lo <=? n mod 10) && (n mod 10 <=? hi))%Z then Some ((n mod 10)%Z, s)
  else None.
Proof.
  unfold one, in_class. rewrite digit_val_digit_char.
  destruct ((lo <=? n mod 10) && (n mod 10 <=? hi))%Z; reflexivity.
Qed.

Lemma two_any_digits (a b : Z) (s : string) :
  two 0 9 0 9 (String (digit_char a) (String (digit_char b) s)) =
  Some ((10 * (a mod 10) + b mod 10)%Z, s).
Proof.
  unfold two. rewrite !one_digit_char.
  pose proof (Z.mod_pos_bound a 10 ltac:(lia)).
  pose proof (Z.mod_pos_bound b 10 ltac:(lia)).
  replace ((0 <=? a mod 10) && (a mod 10 <=? 9))%Z with true
    by (symmetry; apply andb_true_iff; split; apply Z.leb_le; lia).
  rewrite one_digit_char.
  replace ((0 <=? b mod 10) && (b mod 10 <=? 9))%Z with true
    by (symmetry; apply andb_true_iff; split; apply Z.leb_le; lia).
  reflexivity.
Qed.

Lemma four_digits (y : Z) :
  (0 <= y <= 9999)%Z ->
  (100 * (10 * ((y / 1000) mod 10) + (y / 100) mod 10)
   + (10 * ((y / 10) mod 10) + y mod 10) = y)%Z.
Proof.
  intro H. Z.div_mod_to_equations. lia.
Qed.

Lemma group_Y_pad4 (y : Z) (rest : string) :
  (0 <= y <= 9999)%Z -> group_Y (pad4 y ++ rest) = Some (y, rest).
Proof.
  intro H. unfold pad4, pad2. cbn [append]. unfold group_Y.
  rewrite !two_any_digits. rewrite four_digits by exact H. reflexivity.
Qed.

Lemma cases_from_one (P : Z -> Prop) (n : nat) :
  (forall k : nat, (k < n)%nat -> P (1 + Z.of_nat k)%Z) ->
  forall x, (1 <= x <= Z.of_nat n)%Z -> P x.
Proof.
  intros H x Hx.
  replace x with (1 + Z.of_nat (Z.to_nat (x - 1)))%Z by lia.
  apply H. lia.
Qed.

(** The month group takes back a month printed with two digits. *)
Lemma month_alternatives {A} (k : Z -> string -> option A) (rest : string)
    (r : A) :
  forall m, (1 <= m <= 12)%Z ->
  k m rest = Some r ->
  alternatives (group_m (pad2 m ++ rest)) k = Some r.
Proof.
  intros m Hm. change 12%Z with (Z.of_nat 12) in Hm. revert m Hm.
  apply (cases_from_one
           (fun m => k m rest = Some r ->
                     alternatives (group_m (pad2 m ++ rest)) k = Some r)).
  intros j Hj.
  do 12 (destruct j as [|j];
         [intro Hk; vm_compute in Hk |- *; rewrite Hk; reflexivity|]).
  lia.
Qed.

(** The day group takes back a day printed with two digits. *)
Lemma day_alternatives {A} (k : Z -> string -> option A) (rest : string)
    (r : A) :
  forall d, (1 <= d <= 31)%Z ->
  k d rest = Some r ->
  alternatives (group_d (pad2 d ++ rest)) k = Some r.
Proof.
  intros d Hd. change 31%Z with (Z.of_nat 31) in Hd. revert d Hd.
  apply (cases_from_one
           (fun d => k d rest = Some r ->
                     alternatives (group_d (pad2 d ++ rest)) k = Some r)).
  intros j Hj.
  do 31 (destruct j as [|j];
         [intro Hk; vm_compute in Hk |- *; rewrite Hk; reflexivity|]).
  lia.
Qed.

(** Parsing a printed date gives the date back. *)
Lemma strptime_strftime (d : datetime) :
  valid_date d -> strptime (strftime d) = Some d.
Proof.
  intro Hv. pose proof Hv as Hb. apply valid_date_iff in Hv.
  destruct Hv as [Hy [Hm Hd]].
  pose proof (days_in_month_bounds (year d) (month d)) as Hdim.
  unfold strptime, format_regex_match, strftime.
  rewrite group_Y_pad4 by lia. cbn [append literal].
  rewrite Ascii.eqb_refl.
  rewrite (month_alternatives _ _ (year d, month d, day d, EmptyString)); [| lia |].
  - destruct d as [y m dd]. cbn [year month day] in *.
    unfold valid_date in Hb. rewrite Hb. reflexivity.
  - cbn [append literal]. rewrite Ascii.eqb_refl.
    replace (pad2 (day d)) with (pad2 (day d) ++ EmptyString)
      by (unfold pad2; reflexivity).
    apply day_alternatives; [lia | reflexivity].
Qed.

(* ================================================================= *)
(** ** get_trend *)

Lemma trend_step (c : City) (today d : datetime) (i : nat) (g : random) :
  days_before today i = Some d -> ~ area_sq_km c == 0 ->
  (d <- sub_timedelta today i ;;
   r <- compute_risk (base_risk c) d (population c) (area_sq_km c) ;;
   ret (mkHealthTrendData (strftime d) r)) g
  = inr (trend_entry c g 0 d, advance g 1).
Proof.
  intros Hd Ha. unfold bind, sub_timedelta. rewrite Hd. unfold ret.
  rewrite row_risk_ok by exact Ha. reflexivity.
Qed.

(** The next entry of the comprehension, once the one before it is known. *)
Ltac trend_next Hday Harea :=
  unfold bind at 1; unfold bind at 1;
  rewrite (trend_step _ _ _ _ _ Hday Harea).

(** C4: for a name with an exact match, [get_trend] returns seven entries,
    for the dates today-6 to today in this order, each date strictly after
    the one before it, each entry made of the date printed by
    [strftime("%Y-%m-%d")] and of the score computed for that date; for a
    name with no exact match it fails with NotFound.  Each printed date
    reads back, in the format "%Y-%m-%d", as the date it was printed from.
    The matching row has a nonzero area (the data model has it positive),
    and [today] is a date of the calendar with a four-digit year. *)
Theorem get_trend_seven_days_oldest_first :
  forall (db : list City) (city : string) (today : datetime) (g : random),
    valid_date today -> (1000 < year today)%Z ->
    ((forall c, In c db -> name c <> city) ->
       get_trend db city today g = inl NotFound) /\
    ((exists c, In c db /\ name c = city) ->
       exists c, first_by_name db city = Some c /\ In c db /\ name c = city /\
         (~ area_sq_km c == 0 ->
          exists d0 d1 d2 d3 d4 d5 d6,
            days_before today 6 = Some d0 /\ days_before today 5 = Some d1 /\
            days_before today 4 = Some d2 /\ days_before today 3 = Some d3 /\
            days_before today 2 = Some d4 /\ days_before today 1 = Some d5 /\
            d6 = today /\
            date_lt d0 d1 /\ date_lt d1 d2 /\ date_lt d2 d3 /\
            date_lt d3 d4 /\ date_lt d4 d5 /\ date_lt d5 d6 /\
            (forall d, In d [d0; d1; d2; d3; d4; d5; d6] ->
                       strptime (strftime d) = Some d) /\
            get_trend db city today g =
            inr ([trend_entry c g 0 d0; trend_entry c g 1 d1;
                  trend_entry c g 2 d2; trend_entry c g 3 d3;
                  trend_entry c g 4 d4; trend_entry c g 5 d5;
                  trend_entry c g 6 d6],
                 advance g 7))).
Proof.
  intros db city today g Hv Hy. split.
  - intro Hno. apply first_by_name_none in Hno.
    unfold get_trend. rewrite Hno. reflexivity.
  - intro Hex. destruct (first_by_name_match _ _ Hex) as [c [Hf [Hin Hn]]].
    exists c. split; [exact Hf|]. split; [exact Hin|]. split; [exact Hn|].
    intro Ha.
    assert (Hroom : has_room today 6) by (unfold has_room; lia).
    destruct (window_dates today Hv Hroom)
      as (d0 & d1 & d2 & d3 & d4 & d5 & H0 & H1 & H2 & H3 & H4 & H5 &
          L0 & L1 & L2 & L3 & L4 & L5 & Hvalid).
    exists d0, d1, d2, d3, d4, d5, today.
    repeat (split; [assumption || reflexivity|]).
    split.
    { intros d Hd. apply strptime_strftime.
      assert (Hall : Forall valid_date [d0; d1; d2; d3; d4; d5; today]).
      { apply Forall_app with (l1 := [d0; d1; d2; d3; d4; d5]) (l2 := [today]).
        split; [exact Hvalid | constructor; [exact Hv | constructor]]. }
      rewrite Forall_forall in Hall. apply Hall. exact Hd. }
    unfold get_trend. rewrite Hf. unfold range_6_down.
    cbn [mapM]. unfold bind at 1.
    rewrite (trend_step c today d0 6 g H0 Ha).
    trend_next H1 Ha. trend_next H2 Ha. trend_next H3 Ha.
    trend_next H4 Ha. trend_next H5 Ha.
    trend_next (eq_refl : days_before today 0 = Some today) Ha.
    reflexivity.
Qed.

Lemma get_trend_seven_days_oldest_first_witness :
  valid_date jan15 /\ (1000 < year jan15)%Z /\
  get_trend cities_data "Atlantis" jan15 steady = inl NotFound /\
  get_trend cities_data "Delhi" jan15 steady =
  inr ([mkHealthTrendData "2025-01-09" (PyFloat 0.72);
        mkHealthTrendData "2025-01-10" (PyFloat 0.72);
        mkHealthTrendData "2025-01-11" (PyFloat 0.72);
        mkHealthTrendData "2025-01-12" (PyFloat 0.72);
        mkHealthTrendData "2025-01-13" (PyFloat 0.72);
        mkHealthTrendData "2025-01-14" (PyFloat 0.72);
        mkHealthTrendData "2025-01-15" (PyFloat 0.72)],
       advance steady 7).
Proof.
  split; [reflexivity|]. split; [reflexivity|].
  destruct (get_trend_seven_days_oldest_first cities_data "Atlantis" jan15
              steady eq_refl eq_refl) as [Hnone _].
  destruct (get_trend_seven_days_oldest_first cities_data "Delhi" jan15
              steady eq_refl eq_refl) as [_ Hsome].
  split.
  - apply Hnone. apply first_by_name_none. reflexivity.
  - destruct Hsome as [c [Hf [_ [_ H]]]].
    + exists delhi. split; [left; reflexivity | reflexivity].
    + vm_compute in Hf. injection Hf as <-.
      destruct H as (d0 & d1 & d2 & d3 & d4 & d5 & d6 &
                     H0 & H1 & H2 & H3 & H4 & H5 & H6 & _ & _ & _ & _ & _ & _ & _ & E).
      * discriminate.
      * vm_compute in H0, H1, H2, H3, H4, H5.
        injection H0 as <-. injection H1 as <-. injection H2 as <-.
        injection H3 as <-. injection H4 as <-. injection H5 as <-.
        subst d6. rewrite E. vm_compute. reflexivity.
Defined.

(* ================================================================= *)
(** ** get_heatmap_data and get_summary *)

Lemma advance_advance (g : random) (n m : nat) :
  advance (advance g n) m = advance g (n + m).
Proof. unfold advance. cbn. f_equal. lia. Qed.

Lemma city_items_ok (db : list City) (today : datetime) :
  Forall (fun c => ~ area_sq_km c == 0) db ->
  forall g,
    mapM (fun c =>
            r <- compute_risk (base_risk c) today (population c)
                              (area_sq_km c) ;;
            ret (mkCityHeatmapData (name c) r)) db g
    = inr (scores_from db today g, advance g (List.length db)).
Proof.
  induction 1 as [|c rest Hc Hrest IH]; intro g.
  - cbn. unfold ret, advance. destruct g. reflexivity.
  - cbn [mapM]. unfold bind at 1. unfold bind at 1.
    rewrite (row_risk_ok c today g Hc). unfold ret at 1.
    unfold bind at 1. rewrite IH. unfold ret.
    rewrite advance_advance. reflexivity.
Qed.

Lemma scores_from_length (db : list City) (d : datetime) :
  forall g, List.length (scores_from db d g) = List.length db.
Proof.
  induction db as [|c rest IH]; intro g; cbn; [reflexivity|].
  rewrite IH. reflexivity.
Qed.

Lemma scores_from_cities (db : list City) (d : datetime) :
  forall g, List.map city (scores_from db d g) = List.map name db.
Proof.
  induction db as [|c rest IH]; intro g; cbn; [reflexivity|].
  rewrite IH. reflexivity.
Qed.

(** [max_from] returns the first item whose score no item exceeds. *)
Lemma max_from_first (l : list CityHeatmapData) :
  forall pre best mid,
    (forall x, In x pre -> val (risk x) < val (risk best)) ->
    (forall x, In x mid -> val (risk x) <= val (risk best)) ->
    exists before after,
      (pre ++ best :: mid ++ l = before ++ max_from best l :: after)%list /\
      (forall x, In x before -> val (risk x) < val (risk (max_from best l))) /\
      (forall x, In x after -> val (risk x) <= val (risk (max_from best l))).
Proof.
  induction l as [|x l IH]; intros pre best mid Hpre Hmid.
  - exists pre, mid. cbn. rewrite app_nil_r. auto.
  - cbn [max_from]. destruct (Qltb (val (risk best)) (val (risk x))) eqn:E.
    + apply Qltb_lt in E.
      destruct (IH (pre ++ best :: mid)%list x []) as [before [after [H1 [H2 H3]]]].
      * intros y Hy. apply in_app_or in Hy. destruct Hy as [Hy | [<- | Hy]].
        -- specialize (Hpre y Hy). lra.
        -- exact E.
        -- specialize (Hmid y Hy). lra.
      * intros y [].
      * exists before, after. split; [|split; assumption].
        rewrite <- H1. cbn. rewrite <- app_assoc. reflexivity.
    + apply Qltb_ge in E.
      destruct (IH pre best (mid ++ [x])%list) as [before [after [H1 [H2 H3]]]].
      * exact Hpre.
      * intros y Hy. apply in_app_or in Hy. destruct Hy as [Hy | [<- | []]].
        -- exact (Hmid y Hy).
        -- exact E.
      * exists before, after. split; [|split; assumption].
        rewrite <- H1. rewrite <- app_assoc. reflexivity.
Qed.

Lemma fold_sum_shift (l : list CityHeatmapData) :
  forall a,
    fold_left (fun acc d => acc + val (risk d)) l a
    == a + fold_left (fun acc d => acc + val (risk d)) l 0.
Proof.
  induction l as [|x l IH]; intro a; cbn [fold_left].
  - ring.
  - rewrite (IH (a + val (risk x))), (IH (0 + val (risk x))). ring.
Qed.

(** [sum_risk] adds up the scores. *)
Lemma sum_risk_cons (x : CityHeatmapData) (l : list CityHeatmapData) :
  sum_risk (x :: l) == val (risk x) + sum_risk l.
Proof.
  unfold sum_risk. cbn [fold_left]. change (inject_Z 0) with 0.
  rewrite fold_sum_shift. ring.
Qed.







(** The mean of the five seed scores in January, the noise being 0:
    (0.72 + 0.70 + 0.68 + 0.80 + 0.73) / 5 = 0.726, reported as 0.73. *)
Example mean_of_seed_scores :
  risks (scores_from cities_data jan15 steady) = [0.72; 0.70; 0.68; 0.80; 0.73]
  /\ mean (risks (scores_from cities_data jan15 steady)) == 0.726
  /\ round2 (mean (risks (scores_from cities_data jan15 steady))) == 0.73.
Proof. split; [vm_compute; reflexivity|]. split; reflexivity. Qed.

Example get_summary_seed_january :
  get_summary cities_data jan15 steady =
  inr (mkSummaryResponse (mkCityHeatmapData "Kolkata" (PyFloat 0.80))
                         (PyFloat 0.73) 5,
       advance steady 5).
Proof. vm_compute. reflexivity. Qed.

(** Two rows with equal scores: the first one is reported. *)
Example get_summary_tie_first :
  get_summary [twin_a; twin_b] jan15 steady =
  inr (mkSummaryResponse (mkCityHeatmapData "Alpha" (PyFloat 0.51))
                         (PyFloat 0.51) 2,
       advance steady 2)
  /\ get_summary [twin_b; twin_a] jan15 steady =
  inr (mkSummaryResponse (mkCityHeatmapData "Beta" (PyFloat 0.51))
                         (PyFloat 0.51) 2,
       advance steady 2).
Proof. split; vm_compute; reflexivity. Qed.

(* ================================================================= *)
(** ** get_alerts *)

(** The count of a response is the length of its list. *)
Lemma get_alerts_count (db : list City) (today : datetime) (g g' : random)
    (resp : AlertResponse) :
  get_alerts db today g = inr (resp, g') -> count resp = len (alerts resp).
Proof.
  unfold get_alerts, bind, ret.
  destruct (alert_items db today g) as [e | [items g1]]; [discriminate|].
  intro H. injection H as <- _. reflexivity.
Qed.

(** Every listed item names a row whose first score, the one of the
    condition, reached the threshold; the listed score is a second one. *)
Lemma alert_items_condition (db : list City) (today : datetime) :
  forall (g g' : random) (items : list CityHeatmapData) (x : CityHeatmapData),
    alert_items db today g = inr (items, g') ->
    In x items ->
    exists c g1,
      In c db /\ outcome g1 = outcome g /\
      city x = name c /\
      HIGH_RISK_THRESHOLD <= val (score_at c today g1 0) /\
      risk x = score_at c today g1 1.
Proof.
  induction db as [|c rest IH]; intros g g' items x Hrun Hin.
  - cbn in Hrun. injection Hrun as <- _. destruct Hin.
  - cbn [alert_items] in Hrun. unfold bind at 1 in Hrun.
    destruct (Qeq_bool (area_sq_km c) 0) eqn:Earea.
    + apply Qeq_bool_iff in Earea.
      rewrite (row_risk_zero_area c today g Earea) in Hrun. discriminate.
    + assert (Ha : ~ area_sq_km c == 0).
      { intro H. apply Qeq_bool_iff in H. congruence. }
      rewrite (row_risk_ok c today g Ha) in Hrun.
      destruct (Qle_bool HIGH_RISK_THRESHOLD (val (score_at c today g 0))) eqn:Ecmp.
      * unfold bind at 1 in Hrun.
        rewrite (row_risk_ok c today _ Ha) in Hrun.
        unfold bind at 1 in Hrun.
        destruct (alert_items rest today (advance (advance g 1) 1))
          as [e | [items' g1]] eqn:Erest; [discriminate|].
        unfold ret in Hrun. injection Hrun as <- _.
        destruct Hin as [<- | Hin].
        -- exists c, g. split; [left; reflexivity|]. split; [reflexivity|].
           split; [reflexivity|]. split; [apply Qle_bool_iff; exact Ecmp|].
           reflexivity.
        -- destruct (IH _ _ _ _ Erest Hin) as [c' [g2 [H1 [H2 H3]]]].
           exists c', g2. split; [right; exact H1|]. split; [exact H2 | exact H3].
      * destruct (IH _ _ _ _ Hrun Hin) as [c' [g2 [H1 [H2 H3]]]].
        exists c', g2. split; [right; exact H1|]. split; [exact H2 | exact H3].
Qed.

(** With every outcome in the noise range a listed score is at least 0.68,
    and the count is the length of the list. *)
Lemma get_alerts_listed_scores (db : list City) (today : datetime)
    (g g' : random) (resp : AlertResponse) :
  in_range g ->
  get_alerts db today g = inr (resp, g') ->
  count resp = len (alerts resp) /\
  forall x, In x (alerts resp) -> 0.68 <= val (risk x) <= 1.
Proof.
  intros Hrange Hrun. split; [exact (get_alerts_count _ _ _ _ _ Hrun)|].
  unfold get_alerts, bind, ret in Hrun.
  destruct (alert_items db today g) as [e | [items g1]] eqn:E; [discriminate|].
  injection Hrun as <- _. cbn [alerts].
  intros x Hx.
  destruct (alert_items_condition _ _ _ _ _ _ E Hx)
    as [c [g2 [_ [Hout [_ [Hthr Hrisk]]]]]].
  rewrite Hrisk. unfold score_at in *. split.
  - apply (score_after_threshold _ _ _ (outcome g2 (0 + calls g2))).
    + rewrite Hout. apply Hrange.
    + rewrite Hout. apply Hrange.
    + exact Hthr.
  - apply score_range.
Qed.

(** C2 on the seed rows in January, the outcomes alternating between
    0.029 and -0.029: Delhi passes the condition with the score 0.75 and is
    listed with the score 0.69, Chennai is listed with 0.70. *)
Theorem get_alerts_lists_score_below_threshold :
  in_range swing /\
  get_alerts cities_data jan15 swing =
  inr (mkAlertResponse [mkCityHeatmapData "Delhi" (PyFloat 0.69);
                        mkCityHeatmapData "Kolkata" (PyFloat 0.77);
                        mkCityHeatmapData "Chennai" (PyFloat 0.70)] 3,
       advance swing 8) /\
  val (score_at delhi jan15 swing 0) == 0.75 /\
  val (PyFloat 0.69) < HIGH_RISK_THRESHOLD.
Proof.
  split; [apply swing_in_range|].
  split; [vm_compute; reflexivity|].
  split; reflexivity.
Qed.

(* ================================================================= *)
(** ** Substrings *)

Lemma append_assoc (a b c : string) : (a ++ b) ++ c = a ++ (b ++ c).
Proof.
  induction a as [|x a IH]; cbn; [reflexivity|]. rewrite IH. reflexivity.
Qed.

Lemma prefix_iff (n : string) :
  forall h, String.prefix n h = true <-> exists suf, h = n ++ suf.
Proof.
  induction n as [|a n IH]; intro h.
  - split.
    + intros _. exists h. reflexivity.
    + intros _. destruct h; reflexivity.
  - destruct h as [|b h].
    + cbn. split; [discriminate|]. intros [suf H]. discriminate.
    + cbn. destruct (ascii_dec a b) as [-> | Hne].
      * rewrite IH. split.
        -- intros [suf ->]. exists suf. reflexivity.
        -- intros [suf H]. injection H as ->. exists suf. reflexivity.
      * split; [discriminate|]. intros [suf H]. injection H as H1 _.
        congruence.
Qed.

Lemma contains_iff (n : string) :
  forall h, contains n h = true <-> exists pre suf, h = pre ++ n ++ suf.
Proof.
  induction h as [|b h IH].
  - cbn [contains]. rewrite orb_false_r, prefix_iff. split.
    + intros [suf H]. exists EmptyString, suf. exact H.
    + intros [pre [suf H]]. destruct pre; [|discriminate].
      exists suf. exact H.
  - cbn [contains]. rewrite orb_true_iff, prefix_iff, IH. split.
    + intros [[suf H] | [pre [suf H]]].
      * exists EmptyString, suf. exact H.
      * exists (String b pre), suf. cbn. rewrite H. reflexivity.
    + intros [pre [suf H]]. destruct pre as [|b' pre].
      * left. exists suf. exact H.
      * right. cbn in H. injection H as _ H. exists pre, suf. exact H.
Qed.

(** A substring of a substring is a substring. *)
Lemma contains_trans (a b t : string) :
  contains a b = true -> contains b t = true -> contains a t = true.
Proof.
  rewrite !contains_iff. intros [p1 [s1 ->]] [p2 [s2 ->]].
  exists (p2 ++ p1), (s1 ++ s2).
  rewrite !append_assoc. reflexivity.
Qed.

Lemma no_risk_no_high_risk (text : string) :
  contains "risk" text = false -> contains "high risk" text = false.
Proof.
  intro H. destruct (contains "high risk" text) eqn:E; [|reflexivity].
  rewrite (contains_trans "risk" "high risk" text eq_refl E) in H.
  discriminate.
Qed.

(* ================================================================= *)
(** ** chat *)

(** Without "risk" and "trend" in the text the loop over the rows returns
    nothing and draws no noise, whatever rows the text names. *)
Lemma chat_cities_silent (db : list City) (text : string) (today : datetime) :
  contains "risk" text = false -> contains "trend" text = false ->
  forall g, chat_cities db text today g = inr (None, g).
Proof.
  intros Hr Ht. induction db as [|c rest IH]; intro g.
  - reflexivity.
  - cbn [chat_cities]. rewrite Hr, Ht.
    destruct (contains (lower (name c)) text); apply IH.
Qed.

Lemma chat_keywords_branch (db : list City) (text : string) (today : datetime)
    (g : random) :
  chat_keywords db text today g =
  if contains "high risk" text || contains "alerts" text
  then high_risk_answer db today g
  else inr (help_message, g).
Proof.
  unfold chat_keywords, high_risk_answer.
  destruct (contains "high risk" text || contains "alerts" text); reflexivity.
Qed.

(** C10: when the lower-cased query names a stored row but contains
    neither "risk" nor "trend", [chat] gives none of the answers about that
    row: it continues with the keyword branch, which answers with the
    high-risk list when "high risk" or "alerts" occurs in the text and with
    the help message otherwise.  ("high risk" cannot occur in a text
    without "risk", so here the list is reached through "alerts".) *)
Theorem chat_named_city_without_risk_or_trend :
  forall (db : list City) (query : string) (today : datetime) (g : random),
    (exists c, In c db /\ contains (lower (name c)) (lower query) = true) ->
    contains "risk" (lower query) = false ->
    contains "trend" (lower query) = false ->
    chat_cities db (lower query) today g = inr (None, g) /\
    (contains "high risk" (lower query) || contains "alerts" (lower query) = true ->
       chat db query today g = high_risk_answer db today g) /\
    (contains "high risk" (lower query) || contains "alerts" (lower query) = false ->
       chat db query today g = inr (help_message, g)) /\
    contains "high risk" (lower query) = false.
Proof.
  intros db query today g _ Hr Ht.
  pose proof (chat_cities_silent db (lower query) today Hr Ht g) as Hloop.
  split; [exact Hloop|].
  assert (Hchat : chat db query today g = chat_keywords db (lower query) today g).
  { unfold chat, bind. rewrite Hloop. reflexivity. }
  rewrite Hchat, chat_keywords_branch.
  split; [intros ->; reflexivity|].
  split; [intros ->; reflexivity|].
  apply no_risk_no_high_risk. exact Hr.
Qed.

(** With "risk" in the text the first row named in it is answered. *)
Example chat_risk_in_mumbai :
  chat cities_data "what is the risk in mumbai" jan15 steady
  = inr ("The current health risk in Mumbai is 0.7.", advance steady 1) /\
  chat cities_data "Delhi trend please" jan15 steady
  = inr ("You can check the risk trend at /trend?city=Delhi", steady).
Proof. split; vm_compute; reflexivity. Qed.

Lemma chat_named_city_without_risk_or_trend_witness :
  chat cities_data "Mumbai ALERTS" jan15 swing
  = inr ("High-risk cities: Delhi (0.69), Kolkata (0.77), Chennai (0.7)",
         advance swing 8) /\
  chat cities_data "Tell me about Mumbai" jan15 swing
  = inr (help_message, swing).
Proof.
  split.
  - destruct (chat_named_city_without_risk_or_trend cities_data
                "Mumbai ALERTS" jan15 swing) as [_ [H _]].
    + exists (nth 1 cities_data delhi). split; [right; left; reflexivity | reflexivity].
    + reflexivity.
    + reflexivity.
    + rewrite H by reflexivity. vm_compute. reflexivity.
  - destruct (chat_named_city_without_risk_or_trend cities_data
                "Tell me about Mumbai" jan15 swing) as [_ [_ [H _]]].
    + exists (nth 1 cities_data delhi). split; [right; left; reflexivity | reflexivity].
    + reflexivity.
    + reflexivity.
    + apply H. reflexivity.
Defined.


(* ================================================================= *)
(** * Further properties *)

(** ** The score grows with its inputs *)








(** ** How far the noise moves the score *)




(** ** Rows with the area 0 *)

Lemma areas_zero_or_not (db : list City) :
  Forall (fun c => ~ area_sq_km c == 0) db \/
  Exists (fun c => area_sq_km c == 0) db.
Proof.
  induction db as [|c rest IH].
  - left. constructor.
  - destruct (Qeq_dec (area_sq_km c) 0) as [Hz | Hnz].
    + right. left. exact Hz.
    + destruct IH as [IH | IH].
      * left. constructor; assumption.
      * right. right. exact IH.
Qed.

Lemma city_items_zero_area (db : list City) (today : datetime) :
  Exists (fun c => area_sq_km c == 0) db ->
  forall g,
    mapM (fun c =>
            r <- compute_risk (base_risk c) today (population c)
                              (area_sq_km c) ;;
            ret (mkCityHeatmapData (name c) r)) db g
    = inl ZeroDivisionError.
Proof.
  induction db as [|c rest IH]; intros Hex g.
  - inversion Hex.
  - cbn [mapM]. unfold bind at 1. unfold bind at 1.
    destruct (Qeq_dec (area_sq_km c) 0) as [Hz | Hnz].
    + rewrite (row_risk_zero_area c today g Hz). reflexivity.
    + rewrite (row_risk_ok c today g Hnz). unfold ret at 1.
      unfold bind at 1. rewrite IH; [reflexivity|].
      inversion Hex; subst; [contradiction | assumption].
Qed.

Lemma alert_items_zero_area (db : list City) (today : datetime) :
  Exists (fun c => area_sq_km c == 0) db ->
  forall g, alert_items db today g = inl ZeroDivisionError.
Proof.
  induction db as [|c rest IH]; intros Hex g.
  - inversion Hex.
  - cbn [alert_items]. unfold bind at 1.
    destruct (Qeq_dec (area_sq_km c) 0) as [Hz | Hnz].
    + rewrite (row_risk_zero_area c today g Hz). reflexivity.
    + assert (Hrest : Exists (fun c => area_sq_km c == 0) rest).
      { inversion Hex; subst; [contradiction | assumption]. }
      rewrite (row_risk_ok c today g Hnz).
      destruct (Qle_bool HIGH_RISK_THRESHOLD (val (score_at c today g 0))).
      * unfold bind at 1. rewrite (row_risk_ok c today _ Hnz).
        unfold bind at 1. rewrite (IH Hrest). reflexivity.
      * apply IH. exact Hrest.
Qed.

(** One row whose area is 0 makes the heatmap, the summary and the alerts
    fail with [ZeroDivisionError], whatever the other rows are. *)
Theorem zero_area_row_fails_every_listing :
  forall (db : list City) (today : datetime) (g : random),
    Exists (fun c => area_sq_km c == 0) db ->
    get_heatmap_data db today g = inl ZeroDivisionError /\
    get_summary db today g = inl ZeroDivisionError /\
    get_alerts db today g = inl ZeroDivisionError.
Proof.
  intros db today g Hex. split; [|split].
  - unfold get_heatmap_data. apply city_items_zero_area. exact Hex.
  - unfold get_summary. destruct db as [|c rest]; [inversion Hex|].
    unfold bind at 1. rewrite (city_items_zero_area _ today Hex g).
    reflexivity.
  - unfold get_alerts, bind. rewrite (alert_items_zero_area _ today Hex g).
    reflexivity.
Qed.

Lemma zero_area_row_fails_every_listing_witness :
  get_heatmap_data (cities_data ++ [new_row 6 flatland]) jan15 steady
  = inl ZeroDivisionError /\
  get_summary (cities_data ++ [new_row 6 flatland]) jan15 steady
  = inl ZeroDivisionError /\
  get_alerts (cities_data ++ [new_row 6 flatland]) jan15 steady
  = inl ZeroDivisionError.
Proof.
  apply (zero_area_row_fails_every_listing
           (cities_data ++ [new_row 6 flatland]) jan15 steady).
  apply Exists_exists. exists (new_row 6 flatland). split.
  - apply in_or_app. right. left. reflexivity.
  - reflexivity.
Defined.

(** ** get_heatmap_data *)

Lemma scores_from_in (db : list City) (d : datetime) :
  forall g x, In x (scores_from db d g) ->
              exists c g1, In c db /\ x = mkCityHeatmapData (name c) (score_at c d g1 0).
Proof.
  induction db as [|c rest IH]; intros g x Hx.
  - destruct Hx.
  - destruct Hx as [<- | Hx].
    + exists c, g. split; [left; reflexivity | reflexivity].
    + destruct (IH _ _ Hx) as [c' [g1 [Hin E]]].
      exists c', g1. split; [right; exact Hin | exact E].
Qed.

(** When no row has the area 0 the heatmap has one item for each row, in
    row order and under the row's name, every score is a whole number of
    hundredths between 0 and 1, and one noise is drawn for each row. *)
Theorem get_heatmap_data_one_item_per_row :
  forall (db : list City) (today : datetime) (g : random),
    Forall (fun c => ~ area_sq_km c == 0) db ->
    exists items,
      get_heatmap_data db today g = inr (items, advance g (List.length db)) /\
      List.map city items = List.map name db /\
      forall x, In x items ->
        0 <= val (risk x) <= 1 /\
        exists n : Z, (0 <= n <= 100)%Z /\ val (risk x) == n # 100.
Proof.
  intros db today g Hareas.
  exists (scores_from db today g).
  split; [apply (city_items_ok db today Hareas g)|].
  split; [apply scores_from_cities|].
  intros x Hx. destruct (scores_from_in _ _ _ _ Hx) as [c [g1 [_ ->]]].
  cbn [risk]. unfold score_at.
  split; [apply score_range | apply score_hundredths].
Qed.

Lemma get_heatmap_data_one_item_per_row_witness :
  exists items,
    get_heatmap_data cities_data jan15 swing
    = inr (items, advance swing (List.length cities_data)) /\
    List.map city items = List.map name cities_data /\
    forall x, In x items ->
      0 <= val (risk x) <= 1 /\
      exists n : Z, (0 <= n <= 100)%Z /\ val (risk x) == n # 100.
Proof.
  apply (get_heatmap_data_one_item_per_row cities_data jan15 swing).
  repeat constructor; discriminate.
Defined.

(** ** get_summary: the average and the highest score *)

Lemma sum_risk_bounds (lo hi : Q) (l : list CityHeatmapData) :
  (forall x, In x l -> lo <= val (risk x) <= hi) ->
  inject_Z (len l) * lo <= sum_risk l <= inject_Z (len l) * hi.
Proof.
  induction l as [|x l IH]; intro H.
  - unfold sum_risk, len. cbn [List.length fold_left Z.of_nat].
    change (inject_Z 0) with 0. lra.
  - rewrite sum_risk_cons.
    assert (Hl : inject_Z (len (x :: l)) == 1 + inject_Z (len l)).
    { unfold len. cbn [List.length]. rewrite Nat2Z.inj_succ.
      unfold Z.succ. rewrite inject_Z_plus. change (inject_Z 1) with 1. ring. }
    rewrite Hl.
    pose proof (H x (or_introl eq_refl)) as Hx.
    destruct IH as [IH1 IH2]; [intros y Hy; apply H; right; exact Hy|].
    split; lra.
Qed.

(** Whenever [get_summary] returns, the average is between 0 and the score
    of the row it reports as the highest, and that score is at most 1. *)
Theorem get_summary_average_at_most_highest :
  forall (db : list City) (today : datetime) (g g' : random)
         (resp : SummaryResponse),
    get_summary db today g = inr (resp, g') ->
    0 <= val (average_risk resp) /\
    val (average_risk resp) <= val (risk (highest_risk_city resp)) /\
    val (risk (highest_risk_city resp)) <= 1.
Proof.
  intros db today g g' resp Hrun.
  destruct db as [|c rest].
  - cbn in Hrun. injection Hrun as <- _. cbn. repeat split; discriminate.
  - destruct (areas_zero_or_not (c :: rest)) as [Hareas | Hzero].
    2:{ unfold get_summary in Hrun. unfold bind at 1 in Hrun.
        rewrite (city_items_zero_area _ today Hzero g) in Hrun. discriminate. }
    unfold get_summary in Hrun. unfold bind at 1 in Hrun.
    rewrite (city_items_ok _ today Hareas g) in Hrun.
    set (data := scores_from (c :: rest) today g) in *.
    assert (Hdata : data = mkCityHeatmapData (name c) (score_at c today g 0)
                           :: scores_from rest today (advance g 1))
      by reflexivity.
    destruct (max_from_first (scores_from rest today (advance g 1)) []
                (mkCityHeatmapData (name c) (score_at c today g 0)) [])
      as [before [after [H1 [H2 H3]]]].
    { intros x []. }
    { intros x []. }
    cbn [app] in H1. rewrite <- Hdata in H1.
    set (highest := max_from (mkCityHeatmapData (name c) (score_at c today g 0))
                             (scores_from rest today (advance g 1))) in *.
    assert (Hin : In highest data).
    { rewrite H1. apply in_or_app. right. left. reflexivity. }
    destruct (scores_from_in _ _ _ _ Hin) as [ch [gh [_ Eh]]].
    assert (Hscore : forall x, In x data -> 0 <= val (risk x) <= val (risk highest)).
    { intros x Hx. split.
      - destruct (scores_from_in _ _ _ _ Hx) as [cx [gx [_ ->]]].
        cbn [risk]. apply score_range.
      - rewrite H1 in Hx. apply in_app_or in Hx.
        destruct Hx as [Hx | [<- | Hx]].
        + apply Qlt_le_weak. apply H2. exact Hx.
        + apply Qle_refl.
        + apply H3. exact Hx. }
    pose proof (sum_risk_bounds 0 (val (risk highest)) data Hscore) as [S0 S1].
    assert (Hlen : 0 < inject_Z (len data)).
    { rewrite Hdata. unfold len. cbn [List.length].
      rewrite Nat2Z.inj_succ. unfold Qlt, inject_Z. cbn [Qnum Qden]. lia. }
    rewrite Hdata in Hrun at 1. unfold max_by_risk, bind, ret in Hrun.
    fold highest in Hrun.
    rewrite true_div_ok in Hrun by lra.
    injection Hrun as <- _. cbn [average_risk highest_risk_city val].
    assert (Hmean0 : 0 <= sum_risk data / inject_Z (len data)).
    { apply Qle_shift_div_l; [exact Hlen | lra]. }
    assert (Hmean1 : sum_risk data / inject_Z (len data) <= val (risk highest)).
    { apply Qle_shift_div_r; [exact Hlen | lra]. }
    assert (Hh : exists n : Z, (0 <= n <= 100)%Z /\ val (risk highest) == n # 100).
    { rewrite Eh. cbn [risk]. apply score_hundredths. }
    destruct Hh as [n [_ Hn]].
    split; [|split].
    + pose proof (round2_mono _ _ Hmean0) as Hm.
      assert (E0 : round2 0 == 0) by reflexivity. lra.
    + pose proof (round2_mono _ _ Hmean1) as Hm.
      pose proof (round2_eq _ _ Hn) as He.
      pose proof (round2_fixed n) as Hf. lra.
    + rewrite Eh. cbn [risk]. apply score_range.
Qed.

Lemma get_summary_average_at_most_highest_witness :
  get_summary cities_data jan15 steady
  = inr (mkSummaryResponse (mkCityHeatmapData "Kolkata" (PyFloat 0.80))
                           (PyFloat 0.73) 5,
         advance steady 5) /\
  0 <= val (PyFloat 0.73) /\
  val (PyFloat 0.73) <= val (PyFloat 0.80) /\
  val (PyFloat 0.80) <= 1.
Proof.
  split; [vm_compute; reflexivity|].
  apply (get_summary_average_at_most_highest cities_data jan15 steady
           (advance steady 5)
           (mkSummaryResponse (mkCityHeatmapData "Kolkata" (PyFloat 0.80))
                              (PyFloat 0.73) 5)).
  vm_compute. reflexivity.
Defined.

(** ** get_alerts: which rows are listed *)

Lemma alert_items_rows (db : list City) (today : datetime) :
  forall (g g' : random) (items : list CityHeatmapData),
    alert_items db today g = inr (items, g') ->
    subseq (List.map city items) (List.map name db) /\
    outcome g' = outcome g /\
    calls g' = (calls g + List.length db + List.length items)%nat.
Proof.
  induction db as [|c rest IH]; intros g g' items Hrun.
  - cbn in Hrun. injection Hrun as <- <-. cbn.
    split; [constructor|]. split; [reflexivity | lia].
  - cbn [alert_items] in Hrun. unfold bind at 1 in Hrun.
    destruct (Qeq_dec (area_sq_km c) 0) as [Hz | Hnz].
    { rewrite (row_risk_zero_area c today g Hz) in Hrun. discriminate. }
    rewrite (row_risk_ok c today g Hnz) in Hrun.
    destruct (Qle_bool HIGH_RISK_THRESHOLD (val (score_at c today g 0))).
    + unfold bind at 1 in Hrun. rewrite (row_risk_ok c today _ Hnz) in Hrun.
      unfold bind at 1 in Hrun.
      destruct (alert_items rest today (advance (advance g 1) 1))
        as [e | [items' g1]] eqn:Erest; [discriminate|].
      unfold ret in Hrun. injection Hrun as <- <-.
      destruct (IH _ _ _ Erest) as [Hs [Ho Hc]].
      cbn [List.map List.length city].
      split; [apply subseq_keep; exact Hs|].
      split; [exact Ho|]. rewrite Hc. cbn. lia.
    + destruct (IH _ _ _ Hrun) as [Hs [Ho Hc]].
      cbn [List.map List.length].
      split; [apply subseq_skip; exact Hs|].
      split; [exact Ho|]. rewrite Hc. cbn. lia.
Qed.

Lemma subseq_length {A} (small big : list A) :
  subseq small big -> (List.length small <= List.length big)%nat.
Proof.
  induction 1; cbn; lia.
Qed.

(** Whenever [get_alerts] returns, the listed names are names of the table
    in table order (rows are left out, never added or reordered), the count
    is at most the number of rows, and the noise was drawn once for each
    row and once more for each listed row. *)
Theorem get_alerts_rows_in_table_order :
  forall (db : list City) (today : datetime) (g g' : random)
         (resp : AlertResponse),
    get_alerts db today g = inr (resp, g') ->
    subseq (List.map city (alerts resp)) (List.map name db) /\
    (count resp <= len db)%Z /\
    calls g' = (calls g + List.length db + List.length (alerts resp))%nat.
Proof.
  intros db today g g' resp Hrun.
  unfold get_alerts, bind, ret in Hrun.
  destruct (alert_items db today g) as [e | [items g1]] eqn:E; [discriminate|].
  injection Hrun as <- <-. cbn [alerts count].
  destruct (alert_items_rows _ _ _ _ _ E) as [Hs [_ Hc]].
  split; [exact Hs|]. split; [|exact Hc].
  pose proof (subseq_length _ _ Hs) as Hl.
  rewrite !length_map in Hl. unfold len. lia.
Qed.

Lemma get_alerts_rows_in_table_order_witness :
  get_alerts cities_data jan15 swing
  = inr (mkAlertResponse [mkCityHeatmapData "Delhi" (PyFloat 0.69);
                          mkCityHeatmapData "Kolkata" (PyFloat 0.77);
                          mkCityHeatmapData "Chennai" (PyFloat 0.70)] 3,
         advance swing 8) /\
  subseq ["Delhi"; "Kolkata"; "Chennai"] (List.map name cities_data) /\
  (3 <= len cities_data)%Z /\
  calls (advance swing 8) = (calls swing + 5 + 3)%nat.
Proof.
  split; [vm_compute; reflexivity|].
  apply (get_alerts_rows_in_table_order cities_data jan15 swing
           (advance swing 8)
           (mkAlertResponse [mkCityHeatmapData "Delhi" (PyFloat 0.69);
                             mkCityHeatmapData "Kolkata" (PyFloat 0.77);
                             mkCityHeatmapData "Chennai" (PyFloat 0.70)] 3)).
  vm_compute. reflexivity.
Defined.

(** ** chat: the row that is answered *)

Lemma chat_cities_skip (pre rest : list City) (text : string) (today : datetime) :
  (forall x, In x pre -> contains (lower (name x)) text = false) ->
  forall g, chat_cities (pre ++ rest) text today g
            = chat_cities rest text today g.
Proof.
  induction pre as [|x pre IH]; intros Hpre g.
  - reflexivity.
  - cbn [app chat_cities]. rewrite (Hpre x (or_introl eq_refl)).
    apply IH. intros y Hy. apply Hpre. right. exact Hy.
Qed.

(** [chat] answers about the first row of the table whose lower-cased name
    occurs in the lower-cased query.  With "risk" in the text the answer is
    that row's score, computed with one noise, also when "trend", "high
    risk" or "alerts" occur as well; without "risk" and with "trend" it is
    the pointer to the trend, and no noise is drawn. *)
Theorem chat_answers_first_named_row :
  forall (pre post : list City) (c : City) (query : string)
         (today : datetime) (g : random),
    (forall x, In x pre -> contains (lower (name x)) (lower query) = false) ->
    contains (lower (name c)) (lower query) = true ->
    (contains "risk" (lower query) = true ->
     ~ area_sq_km c == 0 ->
     chat (pre ++ c :: post) query today g =
     inr ("The current health risk in " ++ name c ++ " is "
          ++ str (score_at c today g 0) ++ ".", advance g 1)) /\
    (contains "risk" (lower query) = false ->
     contains "trend" (lower query) = true ->
     chat (pre ++ c :: post) query today g =
     inr ("You can check the risk trend at /trend?city=" ++ name c, g)).
Proof.
  intros pre post c query today g Hpre Hc.
  split.
  - intros Hr Ha. unfold chat. unfold bind at 1.
    rewrite (chat_cities_skip pre (c :: post) _ today Hpre g).
    cbn [chat_cities]. rewrite Hc, Hr. unfold bind.
    rewrite (row_risk_ok c today g Ha). reflexivity.
  - intros Hr Ht. unfold chat. unfold bind at 1.
    rewrite (chat_cities_skip pre (c :: post) _ today Hpre g).
    cbn [chat_cities]. rewrite Hc, Hr, Ht. reflexivity.
Qed.

Lemma chat_answers_first_named_row_witness :
  chat cities_data "High RISK and trend in Kolkata or Chennai?" jan15 steady
  = inr ("The current health risk in Kolkata is 0.8.", advance steady 1) /\
  chat cities_data "Trend for Kolkata or Chennai" jan15 steady
  = inr ("You can check the risk trend at /trend?city=Kolkata", steady).
Proof.
  split.
  - apply (chat_answers_first_named_row
             (firstn 3 cities_data) (skipn 4 cities_data)
             (nth 3 cities_data delhi)
             "High RISK and trend in Kolkata or Chennai?" jan15 steady).
    + intros x Hx. cbn in Hx.
      destruct Hx as [<- | [<- | [<- | []]]]; reflexivity.
    + reflexivity.
    + reflexivity.
    + discriminate.
  - apply (chat_answers_first_named_row
             (firstn 3 cities_data) (skipn 4 cities_data)
             (nth 3 cities_data delhi)
             "Trend for Kolkata or Chennai" jan15 steady).
    + intros x Hx. cbn in Hx.
      destruct Hx as [<- | [<- | [<- | []]]]; reflexivity.
    + reflexivity.
    + reflexivity.
    + reflexivity.
Defined.

(** ** chat: the high-risk list *)

(** The comprehension of [chat] is the one of [get_alerts], each item
    printed as "name (score)". *)
Lemma high_risk_items_alert_items (db : list City) (today : datetime) :
  forall g,
    high_risk_items db today g =
    match alert_items db today g with
    | inl e => inl e
    | inr (items, g') => inr (List.map alert_text items, g')
    end.
Proof.
  induction db as [|c rest IH]; intro g.
  - reflexivity.
  - cbn [high_risk_items alert_items]. unfold bind.
    destruct (compute_risk (base_risk c) today (population c) (area_sq_km c) g)
      as [e | [r g1]]; [reflexivity|].
    destruct (Qle_bool HIGH_RISK_THRESHOLD (val r)).
    + destruct (compute_risk (base_risk c) today (population c) (area_sq_km c) g1)
        as [e | [r' g2]]; [reflexivity|].
      rewrite IH.
      destruct (alert_items rest today g2) as [e | [items g3]]; reflexivity.
    + apply IH.
Qed.

(** When no row of the table is named in the lower-cased query, [chat]
    answers by keyword alone, also when the text has "risk" or "trend" in
    it: with "high risk" or "alerts" the answer is the list that
    [get_alerts] returns for the same random source, printed as
    "name (score)" and joined by ", ", or the no-high-risk message when that
    list is empty; otherwise it is the help message, and no noise is
    drawn. *)
Theorem chat_without_named_row :
  forall (db : list City) (query : string) (today : datetime) (g : random),
    (forall x, In x db -> contains (lower (name x)) (lower query) = false) ->
    chat db query today g =
    if contains "high risk" (lower query) || contains "alerts" (lower query)
    then match get_alerts db today g with
         | inl e => inl e
         | inr (resp, g') =>
             inr (match alerts resp with
                  | [] => "No high-risk cities right now."
                  | _ => "High-risk cities: "
                         ++ join ", " (List.map alert_text (alerts resp))
                  end, g')
         end
    else inr (help_message, g).
Proof.
  intros db query today g Hnone.
  assert (Hloop : chat_cities db (lower query) today g = inr (None, g)).
  { rewrite <- (app_nil_r db).
    rewrite (chat_cities_skip db [] _ today Hnone g). reflexivity. }
  unfold chat. unfold bind at 1. rewrite Hloop.
  rewrite chat_keywords_branch.
  destruct (contains "high risk" (lower query) || contains "alerts" (lower query));
    [|reflexivity].
  unfold high_risk_answer, get_alerts, bind.
  rewrite high_risk_items_alert_items.
  destruct (alert_items db today g) as [e | [items g1]]; [reflexivity|].
  unfold ret. cbn [alerts]. destruct items; reflexivity.
Qed.

Lemma chat_without_named_row_witness :
  chat cities_data "Any ALERTS today?" jan15 swing
  = inr ("High-risk cities: Delhi (0.69), Kolkata (0.77), Chennai (0.7)",
         advance swing 8) /\
  chat cities_data "risk and trend in Pune" jan15 swing
  = inr (help_message, swing).
Proof.
  split.
  - rewrite (chat_without_named_row cities_data "Any ALERTS today?" jan15 swing).
    + vm_compute. reflexivity.
    + intros x Hx. cbn in Hx.
      destruct Hx as [<- | [<- | [<- | [<- | [<- | []]]]]]; reflexivity.
  - rewrite (chat_without_named_row cities_data "risk and trend in Pune"
               jan15 swing).
    + reflexivity.
    + intros x Hx. cbn in Hx.
      destruct Hx as [<- | [<- | [<- | [<- | [<- | []]]]]]; reflexivity.
Defined.

(** ** chat always answers *)

Lemma alert_items_ok (db : list City) (today : datetime) :
  Forall (fun c => ~ area_sq_km c == 0) db ->
  forall g, exists items g', alert_items db today g = inr (items, g').
Proof.
  induction 1 as [|c rest Hc Hrest IH]; intro g.
  - exists [], g. reflexivity.
  - cbn [alert_items]. unfold bind at 1. rewrite (row_risk_ok c today g Hc).
    destruct (Qle_bool HIGH_RISK_THRESHOLD (val (score_at c today g 0))).
    + unfold bind at 1. rewrite (row_risk_ok c today _ Hc). unfold bind at 1.
      destruct (IH (advance (advance g 1) 1)) as [items [g' E]].
      rewrite E. eexists. eexists. reflexivity.
    + apply IH.
Qed.

Lemma chat_cities_ok (db : list City) (text : string) (today : datetime) :
  Forall (fun c => ~ area_sq_km c == 0) db ->
  forall g,
    chat_cities db text today g = inr (None, g) \/
    exists response, chat_cities db text today g = inr (Some response, g) \/
                     (chat_cities db text today g
                      = inr (Some response, advance g 1) /\ db <> []).
Proof.
  induction 1 as [|c rest Hc Hrest IH]; intro g.
  - left. reflexivity.
  - cbn [chat_cities].
    destruct (contains (lower (name c)) text).
    + destruct (contains "risk" text).
      * right. eexists. right. split; [|discriminate].
        unfold bind. rewrite (row_risk_ok c today g Hc). reflexivity.
      * destruct (contains "trend" text).
        -- right. eexists. left. reflexivity.
        -- destruct (IH g) as [E | [r [E | [E _]]]].
           ++ left. exact E.
           ++ right. exists r. left. exact E.
           ++ right. exists r. right. split; [exact E | discriminate].
    + destruct (IH g) as [E | [r [E | [E _]]]].
      * left. exact E.
      * right. exists r. left. exact E.
      * right. exists r. right. split; [exact E | discriminate].
Qed.

(** When no row has the area 0, [chat] returns a response for every query,
    and it draws at most two noises for each row of the table. *)
Theorem chat_always_answers :
  forall (db : list City) (query : string) (today : datetime) (g : random),
    Forall (fun c => ~ area_sq_km c == 0) db ->
    exists response g',
      chat db query today g = inr (response, g') /\
      outcome g' = outcome g /\
      (calls g <= calls g' <= calls g + 2 * List.length db)%nat.
Proof.
  intros db query today g Hareas.
  unfold chat. unfold bind at 1.
  destruct (chat_cities_ok db (lower query) today Hareas g)
    as [E | [r [E | [E Hne]]]]; rewrite E.
  - rewrite chat_keywords_branch.
    destruct (contains "high risk" (lower query) || contains "alerts" (lower query)).
    + unfold high_risk_answer, bind. rewrite high_risk_items_alert_items.
      destruct (alert_items_ok db today Hareas g) as [items [g' Ei]].
      rewrite Ei.
      destruct (alert_items_rows _ _ _ _ _ Ei) as [Hs [Ho Hc]].
      pose proof (subseq_length _ _ Hs) as Hl. rewrite !length_map in Hl.
      destruct items; eexists; eexists;
        (split; [reflexivity | split; [exact Ho | cbn [List.length] in *; lia]]).
    + exists help_message, g. split; [reflexivity|]. split; [reflexivity | lia].
  - exists r, g. split; [reflexivity|]. split; [reflexivity | lia].
  - exists r, (advance g 1). split; [reflexivity|]. split; [reflexivity|].
    destruct db; [contradiction|]. cbn. lia.
Qed.

Lemma chat_always_answers_witness :
  exists response g',
    chat cities_data "risk in Mumbai" jan15 swing = inr (response, g') /\
    outcome g' = outcome swing /\
    (calls swing <= calls g' <= calls swing + 2 * List.length cities_data)%nat.
Proof.
  apply (chat_always_answers cities_data "risk in Mumbai" jan15 swing).
  repeat constructor; discriminate.
Defined.

(* ================================================================= *)
(** ** The table *)

Lemma first_by_name_app (db extra : list City) (n : string) :
  first_by_name (db ++ extra) n =
  match first_by_name db n with
  | Some c => Some c
  | None => first_by_name extra n
  end.
Proof.
  unfold first_by_name. induction db as [|c rest IH]; cbn; [reflexivity|].
  destruct (String.eqb (name c) n); [reflexivity | exact IH].
Qed.



(** After a successful [create_city] the new row is the one found under
    its name, every other name is found as before, and a second request
    with the same name fails, whatever its other fields are. *)
Theorem create_city_then_found :
  forall (city : CityBase.t) (rowid : Z) (db db' : list City) (row : City),
    create_city city rowid db = (inr row, db') ->
    first_by_name db' (CityBase.name city) = Some row /\
    (forall n, n <> CityBase.name city ->
               first_by_name db' n = first_by_name db n) /\
    (forall (city' : CityBase.t) (rowid' : Z),
       CityBase.name city' = CityBase.name city ->
       create_city city' rowid' db'
       = (inl (HTTPException 400 "City already exists"), db')).
Proof.
  intros city rowid db db' row Hrun. unfold create_city in Hrun.
  destruct (first_by_name db (CityBase.name city)) as [c|] eqn:Hf;
    [discriminate|].
  injection Hrun as <- <-.
  assert (Hfound : first_by_name (db ++ [new_row rowid city])
                                 (CityBase.name city)
                   = Some (new_row rowid city)).
  { rewrite first_by_name_app, Hf. unfold first_by_name. cbn.
    rewrite String.eqb_refl. reflexivity. }
  split; [exact Hfound|]. split.
  - intros n Hn. rewrite first_by_name_app.
    destruct (first_by_name db n); [reflexivity|].
    unfold first_by_name. cbn.
    destruct (String.eqb (CityBase.name city) n) eqn:E; [|reflexivity].
    apply String.eqb_eq in E. congruence.
  - intros city' rowid' Hname. unfold create_city.
    rewrite Hname, Hfound. reflexivity.
Qed.

Lemma create_city_then_found_witness :
  first_by_name (cities_data ++ [new_row 6 pune]) "Pune" = Some (new_row 6 pune) /\
  (forall n, n <> "Pune" ->
             first_by_name (cities_data ++ [new_row 6 pune]) n
             = first_by_name cities_data n) /\
  (forall (city' : CityBase.t) (rowid' : Z),
     CityBase.name city' = "Pune" ->
     create_city city' rowid' (cities_data ++ [new_row 6 pune])
     = (inl (HTTPException 400 "City already exists"),
        (cities_data ++ [new_row 6 pune])%list)).
Proof.
  apply (create_city_then_found pune 6 cities_data
           (cities_data ++ [new_row 6 pune]) (new_row 6 pune)).
  reflexivity.
Defined.

Lemma first_by_name_none_not_in (db : list City) (n : string) :
  first_by_name db n = None -> ~ In n (List.map name db).
Proof.
  intros Hf Hin. apply in_map_iff in Hin. destruct Hin as [c [Hn Hc]].
  rewrite first_by_name_none in Hf. exact (Hf c Hc Hn).
Qed.

(** [create_city] keeps the names of the table distinct, whether it adds a
    row or refuses. *)
Theorem create_city_keeps_names_unique :
  forall (city : CityBase.t) (rowid : Z) (db : list City),
    unique_names db -> unique_names (snd (create_city city rowid db)).
Proof.
  intros city rowid db Hu. unfold create_city, unique_names in *.
  destruct (first_by_name db (CityBase.name city)) as [c|] eqn:Hf.
  - exact Hu.
  - cbn [snd]. rewrite map_app. cbn [List.map new_row name].
    assert (Hadd : Add (CityBase.name city) (List.map name db)
                       (List.map name db ++ [CityBase.name city])).
    { rewrite <- (app_nil_r (List.map name db)) at 1. apply Add_app. }
    apply (NoDup_Add Hadd).
    split; [exact Hu | apply first_by_name_none_not_in; exact Hf].
Qed.

Lemma seed_names_unique : unique_names cities_data.
Proof.
  unfold unique_names. cbn.
  repeat (constructor; [cbn; intro H; repeat (destruct H as [H | H]; [discriminate|]); exact H|]).
  constructor.
Qed.

Lemma create_city_keeps_names_unique_witness :
  unique_names cities_data /\
  unique_names (snd (create_city pune 6 cities_data)).
Proof.
  split; [exact seed_names_unique|].
  apply (create_city_keeps_names_unique pune 6 cities_data).
  exact seed_names_unique.
Defined.



(** ** init_cities *)

Lemma seed_areas_positive : Forall (fun c => 0 < area_sq_km c) cities_data.
Proof. repeat constructor. Qed.

(** [init_cities] inserts the seed rows into an empty table only: a table
    with a row is left as it is, running it again changes nothing, the
    table is never empty afterwards, and names that were distinct and areas
    that were positive remain so. *)
Theorem init_cities_seeds_once :
  forall db : list City,
    (db <> [] -> init_cities db = db) /\
    init_cities (init_cities db) = init_cities db /\
    init_cities db <> [] /\
    (unique_names db -> unique_names (init_cities db)) /\
    (Forall (fun c => 0 < area_sq_km c) db ->
     Forall (fun c => 0 < area_sq_km c) (init_cities db)).
Proof.
  intro db. destruct db as [|c rest].
  - split; [contradiction|]. split; [reflexivity|].
    split; [discriminate|]. split; intros _.
    + exact seed_names_unique.
    + exact seed_areas_positive.
  - assert (E : init_cities (c :: rest) = c :: rest).
    { unfold init_cities, len. cbn [List.length].
      destruct (Z.of_nat (S (List.length rest)) =? 0)%Z eqn:Ez; [|reflexivity].
      apply Z.eqb_eq in Ez. lia. }
    rewrite !E. split; [reflexivity|]. split; [reflexivity|].
    split; [discriminate|]. split; intro H; exact H.
Qed.

Lemma init_cities_seeds_once_witness :
  init_cities [twin_a] = [twin_a] /\
  init_cities (init_cities []) = init_cities [] /\
  init_cities [] = cities_data.
Proof.
  split; [|split].
  - destruct (init_cities_seeds_once [twin_a]) as [H _].
    apply H. discriminate.
  - destruct (init_cities_seeds_once []) as [_ [H _]]. exact H.
  - reflexivity.
Defined.

(** ** read_cities *)

Lemma firstn_skipn_pages {A} (a b : nat) (l : list A) :
  (firstn a l ++ firstn b (skipn a l))%list = firstn (a + b) l.
Proof.
  revert l. induction a as [|a IH]; intro l.
  - reflexivity.
  - destruct l as [|x l]; cbn.
    + rewrite firstn_nil. reflexivity.
    + rewrite IH. reflexivity.
Qed.

Lemma fits_int64_iff (n : Z) :
  fits_int64 n = true <->
  (- 9223372036854775808 <= n < 9223372036854775808)%Z.
Proof.
  unfold fits_int64. rewrite andb_true_iff, Z.leb_le, Z.ltb_lt. tauto.
Qed.

Lemma read_cities_ok (skip limit : Z) (db : list City) :
  (0 <= skip < 9223372036854775808)%Z ->
  (0 <= limit < 9223372036854775808)%Z ->
  read_cities skip limit db
  = inr (firstn (Z.to_nat limit) (skipn (Z.to_nat skip) db)).
Proof.
  intros Hs Hl. unfold read_cities.
  replace (fits_int64 skip) with true
    by (symmetry; apply fits_int64_iff; lia).
  replace (fits_int64 limit) with true
    by (symmetry; apply fits_int64_iff; lia).
  replace (limit <? 0)%Z with false by (symmetry; apply Z.ltb_ge; lia).
  reflexivity.
Qed.

(** Two pages that follow each other are one page: for an offset and two
    limits that are not negative, every offset and limit of the three
    requests being below 2^63, [read_cities skip a] and
    [read_cities (skip + a) b] return rows that, put one after the other,
    are the rows of [read_cities skip (a + b)]. *)
Theorem read_cities_pages :
  forall (skip a b : Z) (db : list City),
    (0 <= skip)%Z -> (0 <= a)%Z -> (0 <= b)%Z ->
    (skip + a < 9223372036854775808)%Z ->
    (a + b < 9223372036854775808)%Z ->
    exists page1 page2,
      read_cities skip a db = inr page1 /\
      read_cities (skip + a) b db = inr page2 /\
      read_cities skip (a + b) db = inr (page1 ++ page2)%list.
Proof.
  intros skip a b db Hs Ha Hb Hsa Hab.
  rewrite !read_cities_ok by lia.
  eexists. eexists. split; [reflexivity|]. split; [reflexivity|].
  f_equal.
  rewrite (Z2Nat.inj_add skip a), (Z2Nat.inj_add a b) by lia.
  rewrite (Nat.add_comm (Z.to_nat skip) (Z.to_nat a)).
  rewrite <- skipn_skipn.
  rewrite firstn_skipn_pages. reflexivity.
Qed.

Lemma read_cities_pages_witness :
  exists page1 page2,
    read_cities 1 2 cities_data = inr page1 /\
    read_cities (1 + 2) 2 cities_data = inr page2 /\
    read_cities 1 (2 + 2) cities_data = inr (page1 ++ page2)%list.
Proof.
  apply (read_cities_pages 1 2 2 cities_data); lia.
Defined.

Lemma subseq_refl {A} (l : list A) : subseq l l.
Proof. induction l; constructor; assumption. Qed.

Lemma subseq_skipn {A} (n : nat) (l : list A) : subseq (skipn n l) l.
Proof.
  revert l. induction n as [|n IH]; intro l.
  - apply subseq_refl.
  - destruct l as [|x l]; cbn; [constructor|]. apply subseq_skip. apply IH.
Qed.

Lemma subseq_firstn {A} (n : nat) (l : list A) : subseq (firstn n l) l.
Proof.
  revert l. induction n as [|n IH]; intro l.
  - cbn. induction l; constructor; assumption.
  - destruct l as [|x l]; cbn; [constructor|]. apply subseq_keep. apply IH.
Qed.

Lemma subseq_trans {A} (l1 l2 l3 : list A) :
  subseq l1 l2 -> subseq l2 l3 -> subseq l1 l3.
Proof.
  intros H12 H23. revert l1 H12.
  induction H23 as [|x small big H IH|x small big H IH]; intros l1 H12.
  - exact H12.
  - apply subseq_skip. apply IH. exact H12.
  - inversion H12; subst.
    + apply subseq_skip. apply IH. assumption.
    + apply subseq_keep. apply IH. assumption.
Qed.

(** [read_cities] with an offset and a limit that are not negative.  When
    both are below 2^63 it returns rows of the table in table order, as
    many as the limit allows among those after the offset, and none when
    the offset is at or past the end of the table; when one of them is 2^63
    or more it fails with [OverflowError]. *)
Theorem read_cities_window :
  forall (skip limit : Z) (db : list City),
    (0 <= skip)%Z -> (0 <= limit)%Z ->
    ((skip < 9223372036854775808)%Z -> (limit < 9223372036854775808)%Z ->
     exists rows,
       read_cities skip limit db = inr rows /\
       subseq rows db /\
       len rows = Z.min limit (Z.max 0 (len db - skip)) /\
       ((len db <= skip)%Z -> rows = [])) /\
    ((9223372036854775808 <= skip)%Z \/ (9223372036854775808 <= limit)%Z ->
     read_cities skip limit db = inl OverflowError).
Proof.
  intros skip limit db Hs Hl. split.
  - intros Hs' Hl'. rewrite read_cities_ok by lia.
    eexists. split; [reflexivity|]. split; [|split].
    + apply subseq_trans with (l2 := skipn (Z.to_nat skip) db).
      * apply subseq_firstn.
      * apply subseq_skipn.
    + unfold len. rewrite length_firstn, length_skipn. lia.
    + intro Hpast. unfold len in Hpast.
      rewrite skipn_all2 by lia. apply firstn_nil.
  - intro Hbig. unfold read_cities.
    assert (Hno : fits_int64 skip && fits_int64 limit = false).
    { apply andb_false_iff. destruct Hbig as [H | H]; [left | right];
        (destruct (fits_int64 _) eqn:E; [|reflexivity]);
        apply fits_int64_iff in E; lia. }
    rewrite Hno. reflexivity.
Qed.

Lemma read_cities_window_witness :
  (exists rows,
     read_cities 3 100 cities_data = inr rows /\
     subseq rows cities_data /\
     len rows = Z.min 100 (Z.max 0 (len cities_data - 3)) /\
     ((len cities_data <= 3)%Z -> rows = [])) /\
  read_cities 9223372036854775808 100 cities_data = inl OverflowError.
Proof.
  split.
  - apply (read_cities_window 3 100 cities_data); lia.
  - apply (read_cities_window 9223372036854775808 100 cities_data); lia.
Defined.

(* ================================================================= *)
(** ** get_trend and predict_risk together *)

Lemma get_trend_run (db : list City) (city : string) (today : datetime)
    (g : random) (c : City) :
  first_by_name db city = Some c -> ~ area_sq_km c == 0 ->
  valid_date today -> has_room today 6 ->
  exists d0 d1 d2 d3 d4 d5,
    Forall valid_date [d0; d1; d2; d3; d4; d5] /\
    get_trend db city today g =
    inr ([trend_entry c g 0 d0; trend_entry c g 1 d1; trend_entry c g 2 d2;
          trend_entry c g 3 d3; trend_entry c g 4 d4; trend_entry c g 5 d5;
          trend_entry c g 6 today],
         advance g 7).
Proof.
  intros Hf Ha Hv Hroom.
  destruct (window_dates today Hv Hroom)
    as (d0 & d1 & d2 & d3 & d4 & d5 & H0 & H1 & H2 & H3 & H4 & H5 &
        _ & _ & _ & _ & _ & _ & Hvalid).
  exists d0, d1, d2, d3, d4, d5. split; [exact Hvalid|].
  unfold get_trend. rewrite Hf. unfold range_6_down.
  cbn [mapM]. unfold bind at 1.
  rewrite (trend_step c today d0 6 g H0 Ha).
  trend_next H1 Ha. trend_next H2 Ha. trend_next H3 Ha.
  trend_next H4 Ha. trend_next H5 Ha.
  trend_next (eq_refl : days_before today 0 = Some today) Ha.
  reflexivity.
Qed.

Lemma get_trend_zero_area (db : list City) (city : string) (today : datetime)
    (g : random) (c : City) :
  first_by_name db city = Some c -> area_sq_km c == 0 ->
  valid_date today -> has_room today 6 ->
  get_trend db city today g = inl ZeroDivisionError.
Proof.
  intros Hf Hz Hv Hroom.
  destruct (days_before_valid 6 today Hv ltac:(lia) Hroom) as [d0 [H0 _]].
  unfold get_trend. rewrite Hf. unfold range_6_down.
  cbn [mapM]. unfold bind at 1. unfold bind at 1.
  unfold sub_timedelta. rewrite H0. unfold ret at 1. unfold bind at 1.
  rewrite (row_risk_zero_area c d0 g Hz). reflexivity.
Qed.

(** Every date string that [get_trend] returns for a city is accepted by
    [predict_risk] for the same city: it parses to a date of the calendar
    and the request returns a score between 0 and 1, never NotFound or
    InvalidDate.  ([today] has a four-digit year.) *)
Theorem trend_dates_accepted_by_predict_risk :
  forall (db : list City) (city : string) (today : datetime)
         (g g' : random) (entries : list HealthTrendData),
    valid_date today -> (1000 < year today)%Z ->
    get_trend db city today g = inr (entries, g') ->
    forall (e : HealthTrendData) (g2 : random),
      In e entries ->
      exists d r,
        strptime (date e) = Some d /\ valid_date d /\
        predict_risk db (mkRiskRequest city (date e)) g2
        = inr (mkRiskPredictionResponse city (date e) r, advance g2 1) /\
        0 <= val r <= 1.
Proof.
  intros db city today g g' entries Hv Hy Hrun e g2 He.
  assert (Hroom : has_room today 6) by (unfold has_room; lia).
  destruct (first_by_name db city) as [c|] eqn:Hf.
  2:{ unfold get_trend in Hrun. rewrite Hf in Hrun. discriminate. }
  destruct (Qeq_dec (area_sq_km c) 0) as [Hz | Hnz].
  { rewrite (get_trend_zero_area db city today g c Hf Hz Hv Hroom) in Hrun.
    discriminate. }
  destruct (get_trend_run db city today g c Hf Hnz Hv Hroom)
    as (d0 & d1 & d2 & d3 & d4 & d5 & Hvalid & E).
  rewrite E in Hrun. injection Hrun as <- _.
  assert (Hall : Forall valid_date [d0; d1; d2; d3; d4; d5; today]).
  { apply Forall_app with (l1 := [d0; d1; d2; d3; d4; d5]) (l2 := [today]).
    split; [exact Hvalid | constructor; [exact Hv | constructor]]. }
  assert (Hd : exists d k, valid_date d /\ e = trend_entry c g k d).
  { rewrite Forall_forall in Hall.
    cbn [In] in He.
    destruct He as [<- | [<- | [<- | [<- | [<- | [<- | [<- | []]]]]]]];
      eexists; eexists; (split; [|reflexivity]); apply Hall; cbn; tauto. }
  destruct Hd as [d [k [Hvd ->]]].
  destruct (first_by_name_some _ _ _ Hf) as [_ Hname].
  exists d, (score_at c d g2 0).
  cbn [date trend_entry].
  split; [apply strptime_strftime; exact Hvd|].
  split; [exact Hvd|]. split.
  - unfold predict_risk. cbn [req_city req_date]. rewrite Hf.
    rewrite (strptime_strftime d Hvd). unfold bind.
    rewrite (row_risk_ok c d g2 Hnz). rewrite Hname. reflexivity.
  - unfold score_at. apply score_range.
Qed.

Lemma trend_dates_accepted_by_predict_risk_witness :
  exists d r,
    strptime "2025-01-09" = Some d /\ valid_date d /\
    predict_risk cities_data (mkRiskRequest "Delhi" "2025-01-09") swing
    = inr (mkRiskPredictionResponse "Delhi" "2025-01-09" r, advance swing 1) /\
    0 <= val r <= 1.
Proof.
  destruct (get_trend cities_data "Delhi" jan15 steady)
    as [e | [entries g']] eqn:E; [vm_compute in E; discriminate|].
  apply (trend_dates_accepted_by_predict_risk cities_data "Delhi" jan15
           steady g' entries eq_refl eq_refl E
           (mkHealthTrendData "2025-01-09" (PyFloat 0.72)) swing).
  vm_compute in E. injection E as <- _. left. reflexivity.
Defined.

(* ================================================================= *)
(** ** What compute_risk does not look at *)


(** Of the date only the month is read: two dates of the same month give
    the same result, for the same row and the same random source. *)
Theorem compute_risk_reads_only_the_month :
  forall base_risk (d d' : datetime) population area (g : random),
    month d = month d' ->
    compute_risk base_risk d population area g
    = compute_risk base_risk d' population area g.
Proof.
  intros base_risk d d' population area g Hm.
  unfold compute_risk, monsoon_factor, summer_factor, month_in.
  rewrite Hm. reflexivity.
Qed.

Lemma compute_risk_reads_only_the_month_witness :
  compute_risk 0.65 (mkDate 2025 1 15) 20000000 1500 swing
  = compute_risk 0.65 (mkDate 1999 1 31) 20000000 1500 swing.
Proof.
  apply (compute_risk_reads_only_the_month 0.65 (mkDate 2025 1 15)
           (mkDate 1999 1 31) 20000000 1500 swing).
  reflexivity.
Defined.


